(** * Pomodoro timer (script.js): a shallow embedding and its properties

    The program keeps one object [timerState], a key-value store
    ([localStorage]), two text inputs and the callbacks it registered with
    [setInterval] and [setTimeout].  Every function of script.js that the
    properties below talk about is a function on that [world]; [Date.now()]
    is an argument [now], in milliseconds.

    Numbers.  Every number the program computes comes from [Date.now()],
    from an integer literal or from [Number.parseInt], through [+], [-],
    [* 60], [Math.floor (_ / 1000)] and [Math.max]: it is an integer or NaN.
    Integers are kept exact (faithful below 2^53).  Strings are sequences of
    code units below 256.

    The timer functions come first, on the [world] alone, without their
    writes to the document; [Page] below has every function again with these
    writes (texts, [disabled] flags, the theme), and the two agree on the
    [world].  Left out throughout: the progress ring, whose offset is a
    floating-point number, and the sound and the browser notification, which
    nothing reads back and which are taken not to raise. *)

From stdpp Require Import gmap strings pretty.
From Stdlib Require Import ZArith Lia Ascii.

Local Open Scope Z_scope.

(** ** Numbers *)

Inductive num : Type :=
  | Int (z : Z)
  | NaN.

Module Num.

Definition add (a b : num) : num :=
  match a, b with Int x, Int y => Int (x + y) | _, _ => NaN end.

Definition sub (a b : num) : num :=
  match a, b with Int x, Int y => Int (x - y) | _, _ => NaN end.

Definition mul (a b : num) : num :=
  match a, b with Int x, Int y => Int (x * y) | _, _ => NaN end.

(** [Math.max]: NaN as soon as one argument is NaN. *)
Definition max (a b : num) : num :=
  match a, b with Int x, Int y => Int (Z.max x y) | _, _ => NaN end.

(** [===] on numbers: NaN equals nothing. *)
Definition strict_eq (a b : num) : bool :=
  match a, b with Int x, Int y => x =? y | _, _ => false end.

(** [<] on numbers: false as soon as one argument is NaN. *)
Definition lt (a b : num) : bool :=
  match a, b with Int x, Int y => x <? y | _, _ => false end.

(** [String(n)], what [localStorage.setItem] stores for a number. *)
Definition to_string (a : num) : string :=
  match a with Int z => pretty z | NaN => "NaN" end.

End Num.

(** [null] or a number, read as a number: [null] counts as 0. *)
Definition to_number (v : option Z) : Z :=
match v with Some z => z | None => 0 end.

(** [v || 0] for [v] null or a number: null and 0 are falsy. *)
Definition or_zero (v : option Z) : Z :=
match v with
| Some z => if z =? 0 then 0 else z
| None => 0
end.

(** ** Number.parseInt, without a radix argument *)

Module ParseInt.

Definition code (c : ascii) : Z := Z.of_nat (nat_of_ascii c).

(** White space and line terminators among the code units below 256. *)
Definition is_white (c : ascii) : bool :=
  let n := code c in
  ((9 <=? n) && (n <=? 13)) || (n =? 32) || (n =? 160).

Fixpoint trim_start (s : string) : string :=
  match s with
  | String c r => if is_white c then trim_start r else s
  | EmptyString => s
  end.

Definition digit_value (c : ascii) : option Z :=
  let n := code c in
  if (48 <=? n) && (n <=? 57) then Some (n - 48)
  else if (97 <=? n) && (n <=? 122) then Some (n - 87)
  else if (65 <=? n) && (n <=? 90) then Some (n - 55)
  else None.

Definition digit_in (R : Z) (c : ascii) : option Z :=
  match digit_value c with
  | Some d => if d <? R then Some d else None
  | None => None
  end.

(** Value of the longest prefix of radix-[R] digits; [acc] is [None]
    until a first digit was read. *)
Fixpoint digits (R : Z) (s : string) (acc : option Z) : option Z :=
  match s with
  | String c r =>
      match digit_in R c with
      | Some d =>
          digits R r (Some (match acc with Some a => a * R + d | None => d end))
      | None => acc
      end
  | EmptyString => acc
  end.

Definition strip_sign (s : string) : Z * string :=
  match s with
  | String "-"%char r => (-1, r)
  | String "+"%char r => (1, r)
  | _ => (1, s)
  end.

Definition strip_prefix (s : string) : Z * string :=
  match s with
  | String "0"%char (String "x"%char r) => (16, r)
  | String "0"%char (String "X"%char r) => (16, r)
  | _ => (10, s)
  end.

Definition parseInt (s : string) : num :=
  let '(sign, s1) := strip_sign (trim_start s) in
  let '(R, s2) := strip_prefix s1 in
  match digits R s2 None with
  | Some m => Int (sign * m)
  | None => NaN
  end.

End ParseInt.

Import ParseInt.

(** ** The timer state (script.js, lines 6-17) *)

Record timerState : Type := TimerState {
  isRunning : bool;
  isPaused : bool;
  isBreak : bool;
  timeRemaining : num;
  focusDuration : num;
  breakDuration : num;
  sessionsCompleted : num;
  totalSeconds : num;
  startTime : option Z;
  pausedTime : option Z;
}.

Definition initialState : timerState :=
  {| isRunning := false; isPaused := false; isBreak := false;
     timeRemaining := Int (25 * 60);
     focusDuration := Int (25 * 60);
     breakDuration := Int (5 * 60);
     sessionsCompleted := Int 0;
     totalSeconds := Int 0;
     startTime := None;
     pausedTime := None |}.

(** One assignment [timerState.f = v] each. *)
Definition set_isRunning (v : bool) (s : timerState) : timerState :=
  TimerState v (isPaused s) (isBreak s) (timeRemaining s) (focusDuration s)
    (breakDuration s) (sessionsCompleted s) (totalSeconds s) (startTime s)
    (pausedTime s).

Definition set_isPaused (v : bool) (s : timerState) : timerState :=
  TimerState (isRunning s) v (isBreak s) (timeRemaining s) (focusDuration s)
    (breakDuration s) (sessionsCompleted s) (totalSeconds s) (startTime s)
    (pausedTime s).

Definition set_isBreak (v : bool) (s : timerState) : timerState :=
  TimerState (isRunning s) (isPaused s) v (timeRemaining s) (focusDuration s)
    (breakDuration s) (sessionsCompleted s) (totalSeconds s) (startTime s)
    (pausedTime s).

Definition set_timeRemaining (v : num) (s : timerState) : timerState :=
  TimerState (isRunning s) (isPaused s) (isBreak s) v (focusDuration s)
    (breakDuration s) (sessionsCompleted s) (totalSeconds s) (startTime s)
    (pausedTime s).

Definition set_focusDuration (v : num) (s : timerState) : timerState :=
  TimerState (isRunning s) (isPaused s) (isBreak s) (timeRemaining s) v
    (breakDuration s) (sessionsCompleted s) (totalSeconds s) (startTime s)
    (pausedTime s).

Definition set_breakDuration (v : num) (s : timerState) : timerState :=
  TimerState (isRunning s) (isPaused s) (isBreak s) (timeRemaining s)
    (focusDuration s) v (sessionsCompleted s) (totalSeconds s) (startTime s)
    (pausedTime s).

Definition set_sessionsCompleted (v : num) (s : timerState) : timerState :=
  TimerState (isRunning s) (isPaused s) (isBreak s) (timeRemaining s)
    (focusDuration s) (breakDuration s) v (totalSeconds s) (startTime s)
    (pausedTime s).

Definition set_totalSeconds (v : num) (s : timerState) : timerState :=
  TimerState (isRunning s) (isPaused s) (isBreak s) (timeRemaining s)
    (focusDuration s) (breakDuration s) (sessionsCompleted s) v (startTime s)
    (pausedTime s).

Definition set_startTime (v : option Z) (s : timerState) : timerState :=
  TimerState (isRunning s) (isPaused s) (isBreak s) (timeRemaining s)
    (focusDuration s) (breakDuration s) (sessionsCompleted s) (totalSeconds s)
    v (pausedTime s).

Definition set_pausedTime (v : option Z) (s : timerState) : timerState :=
  TimerState (isRunning s) (isPaused s) (isBreak s) (timeRemaining s)
    (focusDuration s) (breakDuration s) (sessionsCompleted s) (totalSeconds s)
    (startTime s) v.

(** [isBreak ? breakDuration : focusDuration] (lines 82-84, 190-192). *)
Definition phaseDuration (s : timerState) : num :=
  if isBreak s then breakDuration s else focusDuration s.

(** ** The world the functions run in *)

Record world : Type := World {
  timer : timerState;
  (** live [setInterval] timers created by [startTimer] *)
  intervals : nat;
  (** pending [setTimeout] callbacks created by [completeTimer] *)
  timeouts : nat;
  localStorage : gmap string string;
  focusInput : string;
  breakInput : string;
}.

Definition with_timer (f : timerState -> timerState) (w : world) : world :=
  World (f (timer w)) (intervals w) (timeouts w) (localStorage w)
    (focusInput w) (breakInput w).

Definition setInterval (w : world) : world :=
  World (timer w) (S (intervals w)) (timeouts w) (localStorage w)
    (focusInput w) (breakInput w).

Definition clearInterval (w : world) : world :=
  World (timer w) (Nat.pred (intervals w)) (timeouts w) (localStorage w)
    (focusInput w) (breakInput w).

Definition setTimeout (w : world) : world :=
  World (timer w) (intervals w) (S (timeouts w)) (localStorage w)
    (focusInput w) (breakInput w).

Definition timeout_fired (w : world) : world :=
  World (timer w) (intervals w) (Nat.pred (timeouts w)) (localStorage w)
    (focusInput w) (breakInput w).

Definition setItem (k v : string) (w : world) : world :=
  World (timer w) (intervals w) (timeouts w) (<[k:=v]> (localStorage w))
    (focusInput w) (breakInput w).

Definition set_inputs (f b : string) (w : world) : world :=
  World (timer w) (intervals w) (timeouts w) (localStorage w) f b.

(** ** Timer logic *)

(** startTimer (lines 61-100): nothing when already running; otherwise
    the three assignments and one new interval. *)
Definition startTimer (now : Z) (w : world) : world :=
  if isRunning (timer w) then w
  else
    setInterval
      (with_timer
         (fun s =>
            set_startTime (Some (now - or_zero (pausedTime s)))
              (set_isPaused false (set_isRunning true s)))
         w).

(** togglePause (lines 105-116). *)
Definition togglePause (now : Z) (w : world) : world :=
  if negb (isRunning (timer w)) then w
  else
    with_timer
      (fun s =>
         set_pausedTime (Some (now - to_number (startTime s)))
           (set_isPaused true (set_isRunning false s)))
      w.

(** resetTimer (lines 121-136). *)
Definition resetTimer (w : world) : world :=
  with_timer
    (fun s =>
       let s := set_isRunning false s in
       let s := set_isPaused false s in
       let s := set_startTime None s in
       let s := set_pausedTime None s in
       set_timeRemaining (focusDuration s) s)
    w.

(** completeTimer (lines 141-172). *)
Definition completeTimer (w : world) : world :=
  setTimeout
    (with_timer
       (fun s =>
          if negb (isBreak s) then
            let s := set_sessionsCompleted (Num.add (sessionsCompleted s) (Int 1)) s in
            let s := set_totalSeconds (Num.add (totalSeconds s) (focusDuration s)) s in
            let s := set_isBreak true s in
            let s := set_timeRemaining (breakDuration s) s in
            set_pausedTime None s
          else
            let s := set_totalSeconds (Num.add (totalSeconds s) (breakDuration s)) s in
            let s := set_isBreak false s in
            let s := set_timeRemaining (focusDuration s) s in
            set_pausedTime None s)
       w).

(** Lines 81-89 of the interval callback: the remaining time is computed
    anew from the start time. *)
Definition recompute (now : Z) (s : timerState) : timerState :=
  let elapsedTime := now - to_number (startTime s) in
  let totalSeconds := if isBreak s then breakDuration s else focusDuration s in
  set_timeRemaining
    (Num.max (Int 0) (Num.sub totalSeconds (Int (elapsedTime / 1000))))
    s.

(** The callback given to [setInterval] (lines 74-99), run by one live
    interval: it clears its own interval when the timer no longer runs and
    when the phase completes. *)
Definition timerInterval (now : Z) (w : world) : world :=
  if negb (isRunning (timer w)) then clearInterval w
  else
    let w := with_timer (recompute now) w in
    if Num.strict_eq (timeRemaining (timer w)) (Int 0)
    then completeTimer (clearInterval w)
    else w.

(** The callback given to [setTimeout] (lines 169-171). *)
Definition autoStart (now : Z) (w : world) : world :=
  startTimer now (timeout_fired w).

(** ** Settings and storage *)

(** [localStorage.getItem(k) || d], as the string both of its uses turn it
    into: an absent key and the empty string are falsy. *)
Definition getItem_or (k : string) (d : Z) (w : world) : string :=
  match localStorage w !! k with
  | Some v => if decide (v = ""%string) then pretty d else v
  | None => pretty d
  end.

(** saveSettings (lines 222-235). *)
Definition saveSettings (w : world) : world :=
  let focusMins := parseInt (focusInput w) in
  let breakMins := parseInt (breakInput w) in
  let w := setItem "pomodoroFocusDuration" (Num.to_string focusMins) w in
  let w := setItem "pomodoroBreakDuration" (Num.to_string breakMins) w in
  with_timer
    (fun s =>
       let s := set_focusDuration (Num.mul focusMins (Int 60)) s in
       let s := set_breakDuration (Num.mul breakMins (Int 60)) s in
       set_timeRemaining (focusDuration s) s)
    w.

(** loadSettings (lines 240-256). *)
Definition loadSettings (w : world) : world :=
  let savedFocus := getItem_or "pomodoroFocusDuration" 25 w in
  let savedBreak := getItem_or "pomodoroBreakDuration" 5 w in
  let savedSessions := getItem_or "pomodoroSessionsCompleted" 0 w in
  let savedTotalSeconds := getItem_or "pomodoroTotalSeconds" 0 w in
  let w := set_inputs savedFocus savedBreak w in
  with_timer
    (fun s =>
       let s := set_focusDuration (Num.mul (parseInt savedFocus) (Int 60)) s in
       let s := set_breakDuration (Num.mul (parseInt savedBreak) (Int 60)) s in
       let s := set_timeRemaining (focusDuration s) s in
       let s := set_sessionsCompleted (parseInt savedSessions) s in
       set_totalSeconds (parseInt savedTotalSeconds) s)
    w.

(** saveStats (lines 261-267). *)
Definition saveStats (w : world) : world :=
  let w := setItem "pomodoroSessionsCompleted"
             (Num.to_string (sessionsCompleted (timer w))) w in
  setItem "pomodoroTotalSeconds" (Num.to_string (totalSeconds (timer w))) w.

(** The page as the script finds it: the literal [timerState], nothing
    scheduled, the given store, empty inputs. *)
Definition page (store : gmap string string) : world :=
  World initialState 0 0 store "" "".

(** ** Event sequences *)

(** What can happen to a page: the three buttons, a live interval firing,
    a pending auto-start firing, the periodic [saveStats]. *)
Inductive event : Type :=
  | EvStart (now : Z)
  | EvPause (now : Z)
  | EvReset
  | EvTick (now : Z)
  | EvAutoStart (now : Z)
  | EvSaveStats.

Definition step (e : event) (w : world) : world :=
  match e with
  | EvStart now => startTimer now w
  | EvPause now => togglePause now w
  | EvReset => resetTimer w
  | EvTick now => if Nat.eqb (intervals w) 0 then w else timerInterval now w
  | EvAutoStart now => if Nat.eqb (timeouts w) 0 then w else autoStart now w
  | EvSaveStats => saveStats w
  end.

Definition run (es : list event) (w : world) : world :=
  fold_left (fun w e => step e w) es w.

(** The fields a tick reads and the ones it reports progress in. *)
Definition same_phase (a b : timerState) : Prop :=
  isBreak a = isBreak b
  /\ focusDuration a = focusDuration b
  /\ breakDuration a = breakDuration b
  /\ sessionsCompleted a = sessionsCompleted b
  /\ totalSeconds a = totalSeconds b.

(** A key of the store that [getItem(k) || d] treats as not set. *)
Definition unset (k : string) (w : world) : Prop :=
  localStorage w !! k = None \/ localStorage w !! k = Some ""%string.

(** The two statistics. *)
Definition stats (s : timerState) : num * num :=
  (sessionsCompleted s, totalSeconds s).

(** Order on the numbers of the program: integers by size, NaN only
    against itself. *)
Definition num_le (a b : num) : Prop :=
  match a, b with
  | Int x, Int y => x <= y
  | NaN, NaN => True
  | _, _ => False
  end.

(** The event [e] is a phase completion on [w]: a live interval fires on
    a running timer and finds no time remaining. *)
Definition completes (e : event) (w : world) : Prop :=
  match e with
  | EvTick now =>
      intervals w <> 0%nat
      /\ isRunning (timer w) = true
      /\ timeRemaining (recompute now (timer w)) = Int 0
  | _ => False
  end.

(** ** Concrete pages used below *)

(** The default page, started at time 0. *)
Definition started : world := startTimer 0 (page ∅).

(** The default page in its break phase, as the first completed focus
    phase leaves it. *)
Definition in_break : world := timerInterval 1500000 started.

(** The default page, started at time 0 and paused 5 seconds later. *)
Definition paused_at_5s : world := togglePause 5000 started.

(** A page whose focus input holds 0. *)
Definition zero_focus : world := set_inputs "0" "5" (page ∅).

(** A page whose focus input holds no number. *)
Definition word_focus : world := set_inputs "soon" "5" (page ∅).

(** A store whose focus entry is not a number. *)
Definition bad_store : gmap string string :=
  {[ "pomodoroFocusDuration"%string := "abc"%string ]}.

(** A focus phase runs to its end, the user resets during the one second
    before the auto-start, then the auto-start fires. *)
Definition reset_then_autostart : list event :=
  [EvStart 0; EvTick 1500000; EvReset; EvAutoStart 1501000].

(** ** Formatting (script.js, lines 52-56 and 202-213) *)

(** [Math.floor (a / b)] for a positive integer [b]. *)
Definition num_floor_div (a : num) (b : Z) : num :=
  match a with Int x => Int (x / b) | NaN => NaN end.

(** [a % b]: the remainder takes the sign of the dividend. *)
Definition num_rem (a : num) (b : Z) : num :=
  match a with Int x => Int (Z.rem x b) | NaN => NaN end.

Fixpoint zeros (n : nat) : string :=
  match n with
  | O => EmptyString
  | S n => String "0"%char (zeros n)
  end.

(** [s.padStart(target, "0")]: zeros in front up to [target] code units,
    nothing when [s] is that long already. *)
Definition padStart (target : nat) (s : string) : string :=
  zeros (target - String.length s) +:+ s.

(** formatTime (lines 52-56). *)
Definition formatTime (seconds : num) : string :=
  let minutes := num_floor_div seconds 60 in
  let secs := num_rem seconds 60 in
  padStart 2 (Num.to_string minutes) +:+ ":" +:+ padStart 2 (Num.to_string secs).

(** The text updateStats gives to [totalTime] (lines 205-212). *)
Definition totalTime_text (total : num) : string :=
  let hours := num_floor_div total 3600 in
  let minutes := num_floor_div (num_rem total 3600) 60 in
  if Num.lt (Int 0) hours
  then Num.to_string hours +:+ "h " +:+ Num.to_string minutes +:+ "m"
  else Num.to_string minutes +:+ "m".

(** ** The page with its elements *)

(** What the script writes to the document: text contents, [disabled]
    flags, whether the root element carries the class dark-mode.  The
    progress ring is left out: its offset is a floating-point product with
    [Math.PI]. *)
Record dom : Type := Dom {
  timerDisplay : string;
  timerLabel : string;
  sessionCount : string;
  totalTime : string;
  startBtn_disabled : bool;
  startBtn_text : string;
  pauseBtn_disabled : bool;
  focusInput_disabled : bool;
  breakInput_disabled : bool;
  dark_mode_class : bool;
  themeToggle_text : string;
}.

Definition set_timerDisplay (v : string) (d : dom) : dom :=
  Dom v (timerLabel d) (sessionCount d) (totalTime d) (startBtn_disabled d)
    (startBtn_text d) (pauseBtn_disabled d) (focusInput_disabled d)
    (breakInput_disabled d) (dark_mode_class d) (themeToggle_text d).

Definition set_timerLabel (v : string) (d : dom) : dom :=
  Dom (timerDisplay d) v (sessionCount d) (totalTime d) (startBtn_disabled d)
    (startBtn_text d) (pauseBtn_disabled d) (focusInput_disabled d)
    (breakInput_disabled d) (dark_mode_class d) (themeToggle_text d).

Definition set_sessionCount (v : string) (d : dom) : dom :=
  Dom (timerDisplay d) (timerLabel d) v (totalTime d) (startBtn_disabled d)
    (startBtn_text d) (pauseBtn_disabled d) (focusInput_disabled d)
    (breakInput_disabled d) (dark_mode_class d) (themeToggle_text d).

Definition set_totalTime (v : string) (d : dom) : dom :=
  Dom (timerDisplay d) (timerLabel d) (sessionCount d) v (startBtn_disabled d)
    (startBtn_text d) (pauseBtn_disabled d) (focusInput_disabled d)
    (breakInput_disabled d) (dark_mode_class d) (themeToggle_text d).

Definition set_startBtn_disabled (v : bool) (d : dom) : dom :=
  Dom (timerDisplay d) (timerLabel d) (sessionCount d) (totalTime d) v
    (startBtn_text d) (pauseBtn_disabled d) (focusInput_disabled d)
    (breakInput_disabled d) (dark_mode_class d) (themeToggle_text d).

Definition set_startBtn_text (v : string) (d : dom) : dom :=
  Dom (timerDisplay d) (timerLabel d) (sessionCount d) (totalTime d)
    (startBtn_disabled d) v (pauseBtn_disabled d) (focusInput_disabled d)
    (breakInput_disabled d) (dark_mode_class d) (themeToggle_text d).

Definition set_pauseBtn_disabled (v : bool) (d : dom) : dom :=
  Dom (timerDisplay d) (timerLabel d) (sessionCount d) (totalTime d)
    (startBtn_disabled d) (startBtn_text d) v (focusInput_disabled d)
    (breakInput_disabled d) (dark_mode_class d) (themeToggle_text d).

Definition set_focusInput_disabled (v : bool) (d : dom) : dom :=
  Dom (timerDisplay d) (timerLabel d) (sessionCount d) (totalTime d)
    (startBtn_disabled d) (startBtn_text d) (pauseBtn_disabled d) v
    (breakInput_disabled d) (dark_mode_class d) (themeToggle_text d).

Definition set_breakInput_disabled (v : bool) (d : dom) : dom :=
  Dom (timerDisplay d) (timerLabel d) (sessionCount d) (totalTime d)
    (startBtn_disabled d) (startBtn_text d) (pauseBtn_disabled d)
    (focusInput_disabled d) v (dark_mode_class d) (themeToggle_text d).

Definition set_dark_mode_class (v : bool) (d : dom) : dom :=
  Dom (timerDisplay d) (timerLabel d) (sessionCount d) (totalTime d)
    (startBtn_disabled d) (startBtn_text d) (pauseBtn_disabled d)
    (focusInput_disabled d) (breakInput_disabled d) v (themeToggle_text d).

Definition set_themeToggle_text (v : string) (d : dom) : dom :=
  Dom (timerDisplay d) (timerLabel d) (sessionCount d) (totalTime d)
    (startBtn_disabled d) (startBtn_text d) (pauseBtn_disabled d)
    (focusInput_disabled d) (breakInput_disabled d) (dark_mode_class d) v.


(** The script's whole state: what the timer functions work on, the
    document, and the variable [isDarkMode] of setupTheme. *)
Record screen : Type := Screen {
  model : world;
  view : dom;
  isDarkMode : bool;
}.

Definition upd_model (f : world -> world) (p : screen) : screen :=
  Screen (f (model p)) (view p) (isDarkMode p).

Definition upd_timer (f : timerState -> timerState) (p : screen) : screen :=
  upd_model (with_timer f) p.

Definition upd_view (f : dom -> dom) (p : screen) : screen :=
  Screen (model p) (f (view p)) (isDarkMode p).

Definition set_isDarkMode (v : bool) (p : screen) : screen :=
  Screen (model p) (view p) v.

(** The functions of script.js once more, statement by statement, with
    their writes to the document. *)
Module Page.

(** updateDisplay (lines 181-184). *)
Definition updateDisplay (p : screen) : screen :=
  let s := timer (model p) in
  let p := upd_view (set_timerDisplay (formatTime (timeRemaining s))) p in
  upd_view
    (set_timerLabel (if isBreak s then "Break Time" else "Focus Time")) p.

(** updateStats (lines 202-213). *)
Definition updateStats (p : screen) : screen :=
  let s := timer (model p) in
  let p := upd_view (set_sessionCount (Num.to_string (sessionsCompleted s))) p in
  upd_view (set_totalTime (totalTime_text (totalSeconds s))) p.

(** completeTimer (lines 141-172). *)
Definition completeTimer (p : screen) : screen :=
  let p :=
    if negb (isBreak (timer (model p))) then
      let p := upd_timer (fun s => set_sessionsCompleted
                                     (Num.add (sessionsCompleted s) (Int 1)) s) p in
      let p := upd_timer (fun s => set_totalSeconds
                                     (Num.add (totalSeconds s) (focusDuration s)) s) p in
      let p := updateStats p in
      let p := upd_timer (set_isBreak true) p in
      let p := upd_timer (fun s => set_timeRemaining (breakDuration s) s) p in
      upd_timer (set_pausedTime None) p
    else
      let p := upd_timer (fun s => set_totalSeconds
                                     (Num.add (totalSeconds s) (breakDuration s)) s) p in
      let p := upd_timer (set_isBreak false) p in
      let p := upd_timer (fun s => set_timeRemaining (focusDuration s) s) p in
      upd_timer (set_pausedTime None) p in
  let p := updateDisplay p in
  upd_model setTimeout p.

(** The callback given to [setInterval] (lines 74-99). *)
Definition timerInterval (now : Z) (p : screen) : screen :=
  if negb (isRunning (timer (model p))) then upd_model clearInterval p
  else
    let p := upd_timer (recompute now) p in
    let p := updateDisplay p in
    if Num.strict_eq (timeRemaining (timer (model p))) (Int 0)
    then completeTimer (upd_model clearInterval p)
    else p.

(** startTimer (lines 61-100). *)
Definition startTimer (now : Z) (p : screen) : screen :=
  if isRunning (timer (model p)) then p
  else
    let p := upd_timer (set_isRunning true) p in
    let p := upd_timer (set_isPaused false) p in
    let p := upd_timer
               (fun s => set_startTime (Some (now - or_zero (pausedTime s))) s) p in
    let p := upd_view (set_startBtn_disabled true) p in
    let p := upd_view (set_pauseBtn_disabled false) p in
    let p := upd_view (set_focusInput_disabled true) p in
    let p := upd_view (set_breakInput_disabled true) p in
    upd_model setInterval p.

(** togglePause (lines 105-116). *)
Definition togglePause (now : Z) (p : screen) : screen :=
  if negb (isRunning (timer (model p))) then p
  else
    let p := upd_timer (set_isRunning false) p in
    let p := upd_timer (set_isPaused true) p in
    let p := upd_timer
               (fun s => set_pausedTime (Some (now - to_number (startTime s))) s) p in
    let p := upd_view (set_startBtn_disabled false) p in
    let p := upd_view (set_pauseBtn_disabled true) p in
    upd_view (set_startBtn_text "Resume") p.

(** resetTimer (lines 121-136). *)
Definition resetTimer (p : screen) : screen :=
  let p := upd_timer (set_isRunning false) p in
  let p := upd_timer (set_isPaused false) p in
  let p := upd_timer (set_startTime None) p in
  let p := upd_timer (set_pausedTime None) p in
  let p := upd_timer (fun s => set_timeRemaining (focusDuration s) s) p in
  let p := upd_view (set_startBtn_disabled false) p in
  let p := upd_view (set_pauseBtn_disabled true) p in
  let p := upd_view (set_startBtn_text "Start") p in
  let p := upd_view (set_focusInput_disabled false) p in
  let p := upd_view (set_breakInput_disabled false) p in
  updateDisplay p.

(** The callback given to [setTimeout] (lines 169-171). *)
Definition autoStart (now : Z) (p : screen) : screen :=
  startTimer now (upd_model timeout_fired p).

(** saveSettings (lines 222-235). *)
Definition saveSettings (p : screen) : screen :=
  let focusMins := parseInt (focusInput (model p)) in
  let breakMins := parseInt (breakInput (model p)) in
  let p := upd_model (setItem "pomodoroFocusDuration" (Num.to_string focusMins)) p in
  let p := upd_model (setItem "pomodoroBreakDuration" (Num.to_string breakMins)) p in
  let p := upd_timer (set_focusDuration (Num.mul focusMins (Int 60))) p in
  let p := upd_timer (set_breakDuration (Num.mul breakMins (Int 60))) p in
  let p := upd_timer (fun s => set_timeRemaining (focusDuration s) s) p in
  updateDisplay p.

(** loadSettings (lines 240-256). *)
Definition loadSettings (p : screen) : screen :=
  let savedFocus := getItem_or "pomodoroFocusDuration" 25 (model p) in
  let savedBreak := getItem_or "pomodoroBreakDuration" 5 (model p) in
  let savedSessions := getItem_or "pomodoroSessionsCompleted" 0 (model p) in
  let savedTotalSeconds := getItem_or "pomodoroTotalSeconds" 0 (model p) in
  let p := upd_model (set_inputs savedFocus savedBreak) p in
  let p := upd_timer (set_focusDuration (Num.mul (parseInt savedFocus) (Int 60))) p in
  let p := upd_timer (set_breakDuration (Num.mul (parseInt savedBreak) (Int 60))) p in
  let p := upd_timer (fun s => set_timeRemaining (focusDuration s) s) p in
  let p := upd_timer (set_sessionsCompleted (parseInt savedSessions)) p in
  let p := upd_timer (set_totalSeconds (parseInt savedTotalSeconds)) p in
  updateStats p.

(** saveStats (lines 261-267). *)
Definition saveStats (p : screen) : screen :=
  let p := upd_model
             (fun w => setItem "pomodoroSessionsCompleted"
                         (Num.to_string (sessionsCompleted (timer w))) w) p in
  upd_model
    (fun w => setItem "pomodoroTotalSeconds"
                (Num.to_string (totalSeconds (timer w))) w) p.

(** applyTheme (lines 364-372). *)
Definition applyTheme (dark : bool) (p : screen) : screen :=
  if dark then
    let p := upd_view (set_dark_mode_class true) p in
    upd_view (set_themeToggle_text "☀️") p
  else
    let p := upd_view (set_dark_mode_class false) p in
    upd_view (set_themeToggle_text "🌙") p.

(** setupTheme (lines 345-359), up to the registration of the click
    listener; [prefersDark] is what [matchMedia] answers.  A stored theme
    counts when it is not the empty string. *)
Definition setupTheme (prefersDark : bool) (p : screen) : screen :=
  let savedTheme := localStorage (model p) !! "pomodoroTheme" in
  let dark :=
    match savedTheme with
    | Some v =>
        if decide (v = ""%string) then prefersDark
        else bool_decide (v = "dark"%string)
    | None => prefersDark
    end in
  let p := set_isDarkMode dark p in
  applyTheme (isDarkMode p) p.

(** The click listener of the theme button (lines 354-358). *)
Definition themeClick (p : screen) : screen :=
  let p := set_isDarkMode (negb (isDarkMode p)) p in
  let p := applyTheme (isDarkMode p) p in
  upd_model
    (setItem "pomodoroTheme" (if isDarkMode p then "dark" else "light")) p.

(** The DOMContentLoaded listener (lines 38-43). *)
Definition onLoad (prefersDark : bool) (p : screen) : screen :=
  let p := loadSettings p in
  let p := setupTheme prefersDark p in
  updateDisplay p.

(** A freshly parsed page: the literal [timerState], nothing scheduled, the
    store and the document as they are found. *)
Definition fresh (store : gmap string string) (d : dom) : screen :=
  Screen (page store) d false.

(** What can happen to the page.  Clicks reach the listeners of lines
    378-380 only when the button is enabled, and the user can change an
    input (lines 383-384) only when it is enabled; the scheduled callbacks
    run whatever the document shows.  The reset and the theme button, whose
    [disabled] flag the script never writes, are taken to be enabled. *)
Inductive event : Type :=
  | ClickStart (now : Z)
  | ClickPause (now : Z)
  | ClickReset
  | ClickTheme
  | ChangeFocus (v : string)
  | ChangeBreak (v : string)
  | Tick (now : Z)
  | AutoStart (now : Z)
  | SaveStats.

Definition step (e : event) (p : screen) : screen :=
  match e with
  | ClickStart now =>
      if startBtn_disabled (view p) then p else startTimer now p
  | ClickPause now =>
      if pauseBtn_disabled (view p) then p else togglePause now p
  | ClickReset => resetTimer p
  | ClickTheme => themeClick p
  | ChangeFocus v =>
      if focusInput_disabled (view p) then p
      else saveSettings
             (upd_model (fun w => set_inputs v (breakInput w) w) p)
  | ChangeBreak v =>
      if breakInput_disabled (view p) then p
      else saveSettings
             (upd_model (fun w => set_inputs (focusInput w) v w) p)
  | Tick now =>
      if Nat.eqb (intervals (model p)) 0 then p else timerInterval now p
  | AutoStart now =>
      if Nat.eqb (timeouts (model p)) 0 then p else autoStart now p
  | SaveStats => saveStats p
  end.

Definition run (es : list event) (p : screen) : screen :=
  fold_left (fun p e => step e p) es p.

End Page.

(** ** Predicates on states and event sequences *)

(** The run flags agree with the time stamps: never running and paused at
    once, a start time while running, a paused time while paused. *)
Definition coherent (s : timerState) : Prop :=
  (isRunning s = true -> isPaused s = false)
  /\ (isRunning s = true -> startTime s <> None)
  /\ (isPaused s = true -> pausedTime s <> None).

(** Events that are no command of the user: scheduled callbacks only. *)
Definition passive (e : event) : Prop :=
  match e with
  | EvTick _ | EvAutoStart _ | EvSaveStats => True
  | _ => False
  end.

(** The clock reading an event carries, if any. *)
Definition event_time (e : event) : option Z :=
  match e with
  | EvStart now | EvPause now | EvTick now | EvAutoStart now => Some now
  | EvReset | EvSaveStats => None
  end.

(** The clock never goes back along the sequence, starting at [t]. *)
Fixpoint clock_from (t : Z) (es : list event) : Prop :=
  match es with
  | [] => True
  | e :: es =>
      match event_time e with
      | Some now => t <= now /\ clock_from now es
      | None => clock_from t es
      end
  end.


(** At clock reading [t], with durations [f] and [b]: the remaining time
    is an integer between 0 and the longer duration, the start time is not
    in the future, the recorded elapsed time is not negative, and a running
    timer has a start time. *)
Definition bounded (f b t : Z) (s : timerState) : Prop :=
  focusDuration s = Int f
  /\ breakDuration s = Int b
  /\ (exists r : Z, timeRemaining s = Int r /\ 0 <= r <= Z.max f b)
  /\ (forall t0 : Z, startTime s = Some t0 -> t0 <= t)
  /\ (forall p : Z, pausedTime s = Some p -> 0 <= p)
  /\ (isRunning s = true -> startTime s <> None).

(** ** Predicates on the page *)

(** The time and the label shown are those of the timer state. *)
Definition display_synced (p : screen) : Prop :=
  timerDisplay (view p) = formatTime (timeRemaining (timer (model p)))
  /\ timerLabel (view p)
     = (if isBreak (timer (model p)) then "Break Time" else "Focus Time")%string.

(** The session count shown is the one of the timer state; the total time
    shown is, at least during a break. *)
Definition stats_synced (p : screen) : Prop :=
  sessionCount (view p) = Num.to_string (sessionsCompleted (timer (model p)))
  /\ (isBreak (timer (model p)) = true ->
      totalTime (view p) = totalTime_text (totalSeconds (timer (model p)))).

(** Start is disabled exactly while the timer runs, pause exactly while it
    does not. *)
Definition buttons_follow (p : screen) : Prop :=
  startBtn_disabled (view p) = isRunning (timer (model p))
  /\ pauseBtn_disabled (view p) = negb (isRunning (timer (model p))).

(** While the timer runs or is paused both duration inputs are disabled. *)
Definition inputs_locked (p : screen) : Prop :=
  isRunning (timer (model p)) = true \/ isPaused (timer (model p)) = true ->
  focusInput_disabled (view p) = true /\ breakInput_disabled (view p) = true.

(** The class of the root element and the button's icon show the mode. *)
Definition theme_applied (p : screen) : Prop :=
  dark_mode_class (view p) = isDarkMode p
  /\ themeToggle_text (view p) = (if isDarkMode p then "☀️" else "🌙")%string.

(** A theme in the store, when there is one, is the current one. *)
Definition theme_remembered (p : screen) : Prop :=
  forall v : string,
    localStorage (model p) !! "pomodoroTheme" = Some v -> v <> ""%string ->
    isDarkMode p = bool_decide (v = "dark"%string).

(** What the theme functions read and write. *)
Definition theme_of (p : screen) : bool * bool * string * option string :=
  (isDarkMode p, dark_mode_class (view p), themeToggle_text (view p),
   localStorage (model p) !! "pomodoroTheme").

(** ** Sanity checks of the embedding *)

Example parseInt_25 : parseInt "25" = Int 25.
Proof. reflexivity. Qed.

Example parseInt_lead : parseInt "  -12px" = Int (-12).
Proof. reflexivity. Qed.

Example parseInt_hex : parseInt "0x1F" = Int 31.
Proof. reflexivity. Qed.

Example parseInt_float : parseInt "1.9" = Int 1.
Proof. reflexivity. Qed.

Example parseInt_word : parseInt "abc" = NaN.
Proof. reflexivity. Qed.

Example parseInt_empty : parseInt "" = NaN.
Proof. reflexivity. Qed.

Example to_string_neg : Num.to_string (Int (-60)) = "-60"%string.
Proof. reflexivity. Qed.

Example started_runs :
  timer started
  = set_startTime (Some 0) (set_isRunning true initialState)
  /\ intervals started = 1%nat.
Proof. split; reflexivity. Qed.

Example in_break_state :
  timer in_break
  = TimerState true false true (Int 300) (Int 1500) (Int 300) (Int 1) (Int 1500)
      (Some 0) None
  /\ intervals in_break = 0%nat /\ timeouts in_break = 1%nat.
Proof. repeat split; reflexivity. Qed.

(** ** Shared lemmas *)

Lemma or_zero_id (v : option Z) : or_zero v = to_number v.
Proof.
  destruct v as [z|]; simpl; [|reflexivity].
  destruct (Z.eqb_spec z 0); congruence.
Qed.

Lemma strict_eq_true (a b : num) :
  Num.strict_eq a b = true <-> exists z, a = Int z /\ b = Int z.
Proof.
  destruct a as [x|], b as [y|]; simpl; split;
    try (intros [z [? ?]]; discriminate); try discriminate.
  - intros H. apply Z.eqb_eq in H. subst. eauto.
  - intros [z [[= ->] [= ->]]]. apply Z.eqb_refl.
Qed.

Lemma strict_eq_zero (a : num) :
  Num.strict_eq a (Int 0) = true <-> a = Int 0.
Proof.
  rewrite strict_eq_true. split.
  - intros [z [-> [= <-]]]. reflexivity.
  - intros ->. eauto.
Qed.

Lemma strict_eq_zero_false (a : num) :
  Num.strict_eq a (Int 0) = false <-> a <> Int 0.
Proof.
  rewrite <- strict_eq_zero. destruct (Num.strict_eq a (Int 0)); split;
    congruence.
Qed.

Lemma timerInterval_running (now : Z) (w : world) :
  isRunning (timer w) = true ->
  timerInterval now w
  = if Num.strict_eq (timeRemaining (recompute now (timer w))) (Int 0)
    then completeTimer (clearInterval (with_timer (recompute now) w))
    else with_timer (recompute now) w.
Proof. intros Hrun. unfold timerInterval. rewrite Hrun. reflexivity. Qed.

Lemma timerInterval_stopped (now : Z) (w : world) :
  isRunning (timer w) = false -> timerInterval now w = clearInterval w.
Proof. intros Hrun. unfold timerInterval. rewrite Hrun. reflexivity. Qed.

(** ** The tick *)

(** C1. While the timer runs, a tick sets timeRemaining to
    max(0, phaseDuration - floor((now - startTime) / 1000)), phaseDuration
    being breakDuration in a break and focusDuration otherwise; when that is
    not 0 nothing else changes, when it is 0 the interval is cleared and the
    phase completes.  For a positive duration d the value is 0 exactly when
    1000 * d milliseconds have elapsed: the phase never completes before d
    full seconds. *)
Theorem tick_floors_elapsed (now : Z) (w : world) :
  isRunning (timer w) = true ->
  let s := timer w in
  let elapsed := now - to_number (startTime s) in
  let r := Num.max (Int 0) (Num.sub (phaseDuration s) (Int (elapsed / 1000))) in
  timeRemaining (recompute now s) = r
  /\ (r <> Int 0 -> timerInterval now w = with_timer (set_timeRemaining r) w)
  /\ (r = Int 0 ->
      timerInterval now w
      = completeTimer (clearInterval (with_timer (set_timeRemaining (Int 0)) w)))
  /\ (forall d : Z, phaseDuration s = Int d -> 0 < d ->
      r = Int (Z.max 0 (d - elapsed / 1000))
      /\ (elapsed < 1000 * d ->
          r <> Int 0 /\ timerInterval now w = with_timer (set_timeRemaining r) w)
      /\ (1000 * d <= elapsed -> r = Int 0)).
Proof.
  intros Hrun s elapsed r.
  assert (Hrec : timeRemaining (recompute now s) = r) by reflexivity.
  assert (Hne : r <> Int 0 ->
                timerInterval now w = with_timer (set_timeRemaining r) w).
  { intros Hr. rewrite timerInterval_running by exact Hrun.
    fold s. rewrite Hrec.
    apply strict_eq_zero_false in Hr. rewrite Hr. reflexivity. }
  split; [exact Hrec|]. split; [exact Hne|]. split.
  - intros Hr. rewrite timerInterval_running by exact Hrun.
    fold s. rewrite Hrec.
    assert (Hz := Hr). apply strict_eq_zero in Hz. rewrite Hz.
    change (with_timer (recompute now) w)
      with (with_timer (set_timeRemaining r) w).
    rewrite Hr. reflexivity.
  - intros d Hd Hpos.
    assert (Hval : r = Int (Z.max 0 (d - elapsed / 1000))).
    { unfold r. rewrite Hd. reflexivity. }
    split; [exact Hval|]. split.
    + intros Hlt.
      assert (Hq : elapsed / 1000 < d)
        by (apply Z.div_lt_upper_bound; lia).
      assert (Hr : r <> Int 0) by (rewrite Hval; intros [= Hm]; lia).
      split; [exact Hr | exact (Hne Hr)].
    + intros Hge.
      assert (Hq : d <= elapsed / 1000)
        by (apply Z.div_le_lower_bound; lia).
      rewrite Hval. f_equal. lia.
Qed.

Lemma tick_floors_elapsed_witness :
  timerInterval 1499999 started
  = with_timer (set_timeRemaining (Int 1)) started.
Proof.
  assert (Hrun : isRunning (timer started) = true) by reflexivity.
  destruct (tick_floors_elapsed 1499999 started Hrun) as (_ & _ & _ & H).
  destruct (H 1500 eq_refl ltac:(lia)) as (_ & Hlt & _).
  destruct Hlt as [_ Heq]; [vm_compute; reflexivity|].
  exact Heq.
Defined.

(** ** Phase completion *)

(** C2. Completing a focus phase adds 1 to sessionsCompleted and
    focusDuration to totalSeconds, sets isBreak and puts breakDuration in
    timeRemaining; completing a break leaves sessionsCompleted alone, adds
    breakDuration to totalSeconds, clears isBreak and puts focusDuration in
    timeRemaining; both clear pausedTime. *)
Theorem completeTimer_alternates (w : world) :
  let s := timer w in
  let s' := timer (completeTimer w) in
  (isBreak s = false ->
     sessionsCompleted s' = Num.add (sessionsCompleted s) (Int 1)
     /\ (forall n : Z, sessionsCompleted s = Int n ->
         sessionsCompleted s' = Int (n + 1))
     /\ totalSeconds s' = Num.add (totalSeconds s) (focusDuration s)
     /\ isBreak s' = true
     /\ timeRemaining s' = breakDuration s)
  /\ (isBreak s = true ->
     sessionsCompleted s' = sessionsCompleted s
     /\ totalSeconds s' = Num.add (totalSeconds s) (breakDuration s)
     /\ isBreak s' = false
     /\ timeRemaining s' = focusDuration s)
  /\ pausedTime s' = None.
Proof.
  destruct w as [s i t st fi bi]. destruct s as [r p b tr fd bd sc ts t0 pt].
  cbn -[Z.add]. split; [|split].
  - intros ->. cbn -[Z.add]. repeat split.
    intros n ->. reflexivity.
  - intros ->. cbn. repeat split.
  - destruct b; reflexivity.
Qed.

Lemma completeTimer_alternates_witness :
  sessionsCompleted (timer (completeTimer started)) = Int 1
  /\ totalSeconds (timer (completeTimer in_break)) = Int 1800.
Proof.
  split.
  - destruct (completeTimer_alternates started) as (Hf & _ & _).
    destruct (Hf eq_refl) as (_ & Hn & _).
    exact (Hn 0 eq_refl).
  - destruct (completeTimer_alternates in_break) as (_ & Hb & _).
    destruct (Hb eq_refl) as (_ & Ht & _).
    exact Ht.
Defined.

(** ** Reset *)

(** C3, at a page in its break phase (focus 1500 s, break 300 s): reset
    leaves the page idle with both time stamps cleared and still in the
    break phase, but timeRemaining is the focus duration, 1500, and not the
    break duration, 300. *)
Theorem resetTimer_in_break_restores_focus :
  let s' := timer (resetTimer in_break) in
  isBreak (timer in_break) = true
  /\ breakDuration (timer in_break) = Int 300
  /\ isRunning s' = false /\ isPaused s' = false
  /\ startTime s' = None /\ pausedTime s' = None
  /\ isBreak s' = true
  /\ timeRemaining s' = Int 1500
  /\ timeRemaining s' <> phaseDuration s'.
Proof. cbv zeta. repeat split; try reflexivity. vm_compute. discriminate. Qed.

(** What [resetTimer] does on every page. *)
Lemma resetTimer_timer (w : world) :
  timer (resetTimer w)
  = TimerState false false (isBreak (timer w)) (focusDuration (timer w))
      (focusDuration (timer w)) (breakDuration (timer w))
      (sessionsCompleted (timer w)) (totalSeconds (timer w)) None None.
Proof. reflexivity. Qed.

(** ** Start, pause and resume *)

Lemma startTimer_running (now : Z) (w : world) :
  isRunning (timer w) = true -> startTimer now w = w.
Proof. intros H. unfold startTimer. rewrite H. reflexivity. Qed.

Lemma startTimer_stopped (now : Z) (w : world) :
  isRunning (timer w) = false ->
  startTimer now w
  = setInterval
      (with_timer
         (fun s =>
            set_startTime (Some (now - or_zero (pausedTime s)))
              (set_isPaused false (set_isRunning true s)))
         w).
Proof. intros H. unfold startTimer. rewrite H. reflexivity. Qed.

Lemma startTimer_runs (now : Z) (w : world) :
  isRunning (timer (startTimer now w)) = true.
Proof.
  destruct (isRunning (timer w)) eqn:H.
  - rewrite startTimer_running; assumption.
  - rewrite startTimer_stopped by assumption. reflexivity.
Qed.

Lemma timerInterval_same_elapsed (n1 n2 : Z) (w1 w2 : world) :
  isRunning (timer w1) = true ->
  isRunning (timer w2) = true ->
  same_phase (timer w1) (timer w2) ->
  n1 - to_number (startTime (timer w1)) = n2 - to_number (startTime (timer w2)) ->
  timeRemaining (timer (timerInterval n1 w1))
  = timeRemaining (timer (timerInterval n2 w2))
  /\ same_phase (timer (timerInterval n1 w1)) (timer (timerInterval n2 w2)).
Proof.
  intros H1 H2 (Hb & Hf & Hd & Hs & Ht) He.
  rewrite !timerInterval_running by assumption.
  assert (Hr : timeRemaining (recompute n1 (timer w1))
               = timeRemaining (recompute n2 (timer w2))).
  { unfold recompute. cbn -[Z.sub Z.div]. rewrite He, Hb, Hf, Hd. reflexivity. }
  rewrite Hr.
  destruct w1 as [s1 i1 u1 st1 fi1 bi1], w2 as [s2 i2 u2 st2 fi2 bi2].
  destruct s1 as [r1 p1 b1 tr1 fd1 bd1 sc1 ts1 a1 pt1].
  destruct s2 as [r2 p2 b2 tr2 fd2 bd2 sc2 ts2 a2 pt2].
  cbn -[Z.sub Z.div recompute] in *. subst.
  destruct (Num.strict_eq _ _).
  - unfold same_phase. destruct b2; cbn -[Z.sub Z.div]; repeat split.
  - split; [exact Hr|]. unfold same_phase. cbn -[Z.sub Z.div]. repeat split.
Qed.

(** C5. Pausing a running timer at t1 records the elapsed time
    t1 - startTime; resuming at any later t2 sets
    startTime = t2 - pausedTime.  From then on the elapsed time, and so the
    remaining time a tick computes and whether the phase completes, x
    milliseconds after the resume is what it would have been x milliseconds
    after t1 without the pause: the pause's length t2 - t1 is not counted. *)
Theorem pause_resume_no_drift (t1 t2 : Z) (w : world) :
  isRunning (timer w) = true ->
  let t0 := to_number (startTime (timer w)) in
  let wp := togglePause t1 w in
  let wr := startTimer t2 wp in
  pausedTime (timer wp) = Some (t1 - t0)
  /\ isRunning (timer wp) = false
  /\ startTime (timer wr) = Some (t2 - (t1 - t0))
  /\ isRunning (timer wr) = true
  /\ (forall x : Z,
      (t2 + x) - to_number (startTime (timer wr)) = (t1 - t0) + x
      /\ timeRemaining (recompute (t2 + x) (timer wr))
         = timeRemaining (recompute (t1 + x) (timer w))
      /\ timeRemaining (timer (timerInterval (t2 + x) wr))
         = timeRemaining (timer (timerInterval (t1 + x) w))
      /\ isBreak (timer (timerInterval (t2 + x) wr))
         = isBreak (timer (timerInterval (t1 + x) w))
      /\ sessionsCompleted (timer (timerInterval (t2 + x) wr))
         = sessionsCompleted (timer (timerInterval (t1 + x) w))
      /\ totalSeconds (timer (timerInterval (t2 + x) wr))
         = totalSeconds (timer (timerInterval (t1 + x) w))).
Proof.
  intros Hrun t0 wp wr.
  assert (Hp : pausedTime (timer wp) = Some (t1 - t0)
               /\ isRunning (timer wp) = false).
  { unfold wp, togglePause. rewrite Hrun. split; reflexivity. }
  destruct Hp as [Hpt Hstop].
  assert (Hst : startTime (timer wr) = Some (t2 - (t1 - t0))).
  { unfold wr. rewrite startTimer_stopped by exact Hstop.
    cbn -[Z.sub or_zero wp]. rewrite Hpt, or_zero_id. reflexivity. }
  assert (Hph : same_phase (timer wr) (timer w)).
  { unfold wr. rewrite startTimer_stopped by exact Hstop.
    unfold wp, togglePause. rewrite Hrun. repeat split. }
  assert (Hrun' : isRunning (timer wr) = true) by apply startTimer_runs.
  split; [exact Hpt|]. split; [exact Hstop|]. split; [exact Hst|].
  split; [exact Hrun'|].
  intros x.
  assert (He : t2 + x - to_number (startTime (timer wr)) = t1 - t0 + x).
  { rewrite Hst. simpl. lia. }
  split; [exact He|].
  destruct (timerInterval_same_elapsed (t2 + x) (t1 + x) wr w Hrun' Hrun Hph)
    as (Htr & Hb & _ & _ & Hs & Ht).
  { rewrite He. fold t0. lia. }
  split.
  - destruct Hph as (Hb' & Hf' & Hd' & _).
    unfold recompute. cbn -[Z.sub Z.add Z.div wr].
    rewrite He, Hb', Hf', Hd'. fold t0.
    replace (t1 + x - t0) with (t1 - t0 + x) by lia. reflexivity.
  - repeat split; assumption.
Qed.

Lemma pause_resume_no_drift_witness :
  startTime (timer (startTimer 65000 paused_at_5s)) = Some 60000
  /\ timeRemaining (timer (timerInterval (65000 + 1000)
                             (startTimer 65000 paused_at_5s)))
     = timeRemaining (timer (timerInterval (5000 + 1000) started)).
Proof.
  assert (Hrun : isRunning (timer started) = true) by reflexivity.
  destruct (pause_resume_no_drift 5000 65000 started Hrun)
    as (_ & _ & Hst & _ & Hx).
  split; [exact Hst|].
  destruct (Hx 1000) as (_ & _ & Htr & _). exact Htr.
Defined.

(** C6. Start is idempotent: on a running timer it changes nothing, neither
    in the timer state nor in what is scheduled or stored; and from any
    page, idle ones included, a second start right after a first one leaves
    what the first one produced. *)
Theorem startTimer_idempotent :
  (forall (now : Z) (w : world),
     isRunning (timer w) = true -> startTimer now w = w)
  /\ (forall (n1 n2 : Z) (w : world),
     startTimer n2 (startTimer n1 w) = startTimer n1 w).
Proof.
  split.
  - exact startTimer_running.
  - intros n1 n2 w. apply startTimer_running, startTimer_runs.
Qed.

Lemma startTimer_idempotent_witness :
  startTimer 700 started = started
  /\ startTimer 1 (startTimer 0 (page ∅)) = startTimer 0 (page ∅).
Proof.
  destruct startTimer_idempotent as [Hrun Htwice].
  split.
  - apply (Hrun 700 started). reflexivity.
  - apply (Htwice 0 1 (page ∅)).
Defined.

(** C8 as stated fails on a resume: the timer paused 5 s into its run and
    started again at 9 s has startTime = 9000 - 5000, but pausedTime still
    holds 5000. *)
Lemma startTimer_keeps_pausedTime_on_resume :
  isRunning (timer paused_at_5s) = false
  /\ isPaused (timer paused_at_5s) = true
  /\ startTime (timer (startTimer 9000 paused_at_5s)) = Some 4000
  /\ pausedTime (timer (startTimer 9000 paused_at_5s)) = Some 5000
  /\ pausedTime (timer (startTimer 9000 paused_at_5s)) <> None.
Proof. repeat split; try reflexivity. vm_compute. discriminate. Qed.

(** C8, amended. A start command on a timer that is not running (idle or
    paused) sets startTime = now - (pausedTime or 0), sets isRunning, clears
    isPaused and leaves pausedTime as it was: absent on a fresh start, the
    recorded elapsed time on a resume. *)
Theorem startTimer_sets_startTime (now : Z) (w : world) :
  isRunning (timer w) = false ->
  let s' := timer (startTimer now w) in
  startTime s' = Some (now - or_zero (pausedTime (timer w)))
  /\ or_zero (pausedTime (timer w)) = to_number (pausedTime (timer w))
  /\ pausedTime s' = pausedTime (timer w)
  /\ isRunning s' = true
  /\ isPaused s' = false.
Proof.
  intros H s'. unfold s'. rewrite startTimer_stopped by exact H.
  repeat split. apply or_zero_id.
Qed.

Lemma startTimer_sets_startTime_witness :
  startTime (timer (startTimer 42 (page ∅))) = Some (42 - 0)
  /\ pausedTime (timer (startTimer 9000 paused_at_5s)) = Some 5000.
Proof.
  split.
  - destruct (startTimer_sets_startTime 42 (page ∅) eq_refl) as (H & _).
    exact H.
  - destruct (startTimer_sets_startTime 9000 paused_at_5s eq_refl)
      as (_ & _ & H & _).
    exact H.
Defined.

(** ** Reset and the pending auto-start *)

(** C7, at the page where a focus phase of 1500 s ran to its end at
    1500000 ms, the user reset right after and the auto-start fired one
    second later: the reset left the timer idle but the auto-start pending,
    and when it fires the timer runs again, in the break phase. *)
Theorem reset_does_not_cancel_autoStart :
  let before := run [EvStart 0; EvTick 1500000; EvReset] (page ∅) in
  let after := run reset_then_autostart (page ∅) in
  isRunning (timer before) = false
  /\ isPaused (timer before) = false
  /\ timeouts before = 1%nat
  /\ isRunning (timer after) = true
  /\ isBreak (timer after) = true
  /\ startTime (timer after) = Some 1501000
  /\ intervals after = 1%nat.
Proof. cbv zeta. repeat split; vm_compute; reflexivity. Qed.

(** [resetTimer] touches the timer state only. *)
Lemma resetTimer_keeps_schedule (w : world) :
  timeouts (resetTimer w) = timeouts w
  /\ intervals (resetTimer w) = intervals w.
Proof. split; reflexivity. Qed.

(** ** Settings *)

(** C4 as stated fails: with 0 in the focus input the settings change goes
    through, focusDuration becomes 0 and "0" is stored; with a word in it
    focusDuration becomes NaN and "NaN" is stored. *)
Lemma saveSettings_accepts_zero :
  parseInt (focusInput zero_focus) = Int 0
  /\ focusDuration (timer zero_focus) = Int 1500
  /\ focusDuration (timer (saveSettings zero_focus)) = Int 0
  /\ focusDuration (timer (saveSettings zero_focus))
     <> focusDuration (timer zero_focus)
  /\ localStorage (saveSettings zero_focus) !! "pomodoroFocusDuration"
     = Some "0"
  /\ parseInt (focusInput word_focus) = NaN
  /\ focusDuration (timer (saveSettings word_focus)) = NaN
  /\ localStorage (saveSettings word_focus) !! "pomodoroFocusDuration"
     = Some "NaN".
Proof.
  repeat split; try reflexivity.
  vm_compute. discriminate.
Qed.

(** C4, amended. The settings change never fails and checks nothing: for
    all inputs it stores the text of parseInt(focus) and parseInt(break),
    sets focusDuration and breakDuration to these times 60 and timeRemaining
    to the new focusDuration, and leaves the rest of the timer state and of
    the store alone.  For integer inputs m and n, positive ones included,
    the durations are 60 m and 60 n seconds. *)
Theorem saveSettings_stores_parsed (w : world) :
  let f := parseInt (focusInput w) in
  let b := parseInt (breakInput w) in
  let s := timer w in
  let s' := timer (saveSettings w) in
  focusDuration s' = Num.mul f (Int 60)
  /\ breakDuration s' = Num.mul b (Int 60)
  /\ timeRemaining s' = Num.mul f (Int 60)
  /\ localStorage (saveSettings w) !! "pomodoroFocusDuration"
     = Some (Num.to_string f)
  /\ localStorage (saveSettings w) !! "pomodoroBreakDuration"
     = Some (Num.to_string b)
  /\ (forall k : string,
      k <> "pomodoroFocusDuration" -> k <> "pomodoroBreakDuration" ->
      localStorage (saveSettings w) !! k = localStorage w !! k)
  /\ (isRunning s', isPaused s', isBreak s', sessionsCompleted s',
      totalSeconds s', startTime s', pausedTime s')
     = (isRunning s, isPaused s, isBreak s, sessionsCompleted s,
        totalSeconds s, startTime s, pausedTime s)
  /\ (forall m n : Z, f = Int m -> b = Int n ->
      focusDuration s' = Int (m * 60)
      /\ breakDuration s' = Int (n * 60)
      /\ timeRemaining s' = Int (m * 60)).
Proof.
  intros f b s s'.
  assert (Hf : focusDuration s' = Num.mul f (Int 60)) by reflexivity.
  assert (Hb : breakDuration s' = Num.mul b (Int 60)) by reflexivity.
  assert (Ht : timeRemaining s' = Num.mul f (Int 60)) by reflexivity.
  do 3 (split; [assumption|]).
  split; [|split; [|split; [|split; [reflexivity|]]]].
  - unfold saveSettings. cbn -[parseInt Num.to_string].
    rewrite lookup_insert_ne by discriminate. apply lookup_insert_eq.
  - unfold saveSettings. cbn -[parseInt Num.to_string].
    apply lookup_insert_eq.
  - intros k Hk1 Hk2. unfold saveSettings. cbn -[parseInt Num.to_string].
    rewrite !lookup_insert_ne by congruence. reflexivity.
  - intros m n Hm Hn. rewrite Hf, Hb, Ht, Hm, Hn. repeat split.
Qed.

Lemma saveSettings_stores_parsed_witness :
  focusDuration (timer (saveSettings (set_inputs "50" "10" (page ∅))))
  = Int (50 * 60)
  /\ breakDuration (timer (saveSettings (set_inputs "50" "10" (page ∅))))
     = Int (10 * 60).
Proof.
  destruct (saveSettings_stores_parsed (set_inputs "50" "10" (page ∅)))
    as (_ & _ & _ & _ & _ & _ & _ & H).
  destruct (H 50 10 eq_refl eq_refl) as (Hf & Hb & _).
  split; [exact Hf | exact Hb].
Defined.

(** ** Loading *)

Lemma getItem_or_unset (k : string) (d : Z) (w : world) :
  unset k w -> getItem_or k d w = pretty d.
Proof.
  unfold unset, getItem_or. intros [-> | ->]; [reflexivity|].
  destruct (decide _); congruence.
Qed.

Lemma getItem_or_set (k v : string) (d : Z) (w : world) :
  localStorage w !! k = Some v -> v <> ""%string -> getItem_or k d w = v.
Proof.
  unfold getItem_or. intros -> Hv. destruct (decide _); congruence.
Qed.

(** C9 as stated fails: with "abc" stored as the focus duration, load
    gives focusDuration = NaN and not the default 1500. *)
Lemma loadSettings_bad_value_is_NaN :
  parseInt "abc" = NaN
  /\ focusDuration (timer (loadSettings (page bad_store))) = NaN
  /\ focusDuration (timer (loadSettings (page bad_store))) <> Int 1500
  /\ timeRemaining (timer (loadSettings (page bad_store))) = NaN.
Proof. repeat split; try (vm_compute; reflexivity). vm_compute. discriminate. Qed.

(** C9, amended. Load fills focusDuration, breakDuration, sessionsCompleted
    and totalSeconds from the store.  A key that is absent (or holds the
    empty string) gives its default: 25 minutes = 1500 s, 5 minutes = 300 s,
    0 and 0; so the empty store gives (1500, 300, 0, 0).  Any other stored
    text v gives parseInt(v), times 60 for the two durations, which is NaN
    when v does not start with an integer: no default is put in its place.
    timeRemaining is the loaded focusDuration. *)
Theorem loadSettings_defaults (w : world) :
  let s' := timer (loadSettings w) in
  ((unset "pomodoroFocusDuration" w -> focusDuration s' = Int 1500)
   /\ (unset "pomodoroBreakDuration" w -> breakDuration s' = Int 300)
   /\ (unset "pomodoroSessionsCompleted" w -> sessionsCompleted s' = Int 0)
   /\ (unset "pomodoroTotalSeconds" w -> totalSeconds s' = Int 0))
  /\ (forall v : string, v <> ""%string ->
      (localStorage w !! "pomodoroFocusDuration" = Some v ->
       focusDuration s' = Num.mul (parseInt v) (Int 60))
      /\ (localStorage w !! "pomodoroBreakDuration" = Some v ->
          breakDuration s' = Num.mul (parseInt v) (Int 60))
      /\ (localStorage w !! "pomodoroSessionsCompleted" = Some v ->
          sessionsCompleted s' = parseInt v)
      /\ (localStorage w !! "pomodoroTotalSeconds" = Some v ->
          totalSeconds s' = parseInt v))
  /\ (forall v : string, v <> ""%string -> parseInt v = NaN ->
      (localStorage w !! "pomodoroFocusDuration" = Some v ->
       focusDuration s' = NaN)
      /\ (localStorage w !! "pomodoroBreakDuration" = Some v ->
          breakDuration s' = NaN)
      /\ (localStorage w !! "pomodoroSessionsCompleted" = Some v ->
          sessionsCompleted s' = NaN)
      /\ (localStorage w !! "pomodoroTotalSeconds" = Some v ->
          totalSeconds s' = NaN))
  /\ timeRemaining s' = focusDuration s'
  /\ (localStorage w = ∅ ->
      (focusDuration s', breakDuration s', sessionsCompleted s',
       totalSeconds s') = (Int 1500, Int 300, Int 0, Int 0)).
Proof.
  intros s'.
  assert (Hf : focusDuration s'
               = Num.mul (parseInt (getItem_or "pomodoroFocusDuration" 25 w))
                   (Int 60)) by reflexivity.
  assert (Hb : breakDuration s'
               = Num.mul (parseInt (getItem_or "pomodoroBreakDuration" 5 w))
                   (Int 60)) by reflexivity.
  assert (Hs : sessionsCompleted s'
               = parseInt (getItem_or "pomodoroSessionsCompleted" 0 w))
    by reflexivity.
  assert (Ht : totalSeconds s'
               = parseInt (getItem_or "pomodoroTotalSeconds" 0 w))
    by reflexivity.
  assert (Hunset :
    (unset "pomodoroFocusDuration" w -> focusDuration s' = Int 1500)
    /\ (unset "pomodoroBreakDuration" w -> breakDuration s' = Int 300)
    /\ (unset "pomodoroSessionsCompleted" w -> sessionsCompleted s' = Int 0)
    /\ (unset "pomodoroTotalSeconds" w -> totalSeconds s' = Int 0)).
  { repeat split; intros Hu.
    - rewrite Hf, getItem_or_unset by exact Hu. reflexivity.
    - rewrite Hb, getItem_or_unset by exact Hu. reflexivity.
    - rewrite Hs, getItem_or_unset by exact Hu. reflexivity.
    - rewrite Ht, getItem_or_unset by exact Hu. reflexivity. }
  assert (Hset : forall v : string, v <> ""%string ->
      (localStorage w !! "pomodoroFocusDuration" = Some v ->
       focusDuration s' = Num.mul (parseInt v) (Int 60))
      /\ (localStorage w !! "pomodoroBreakDuration" = Some v ->
          breakDuration s' = Num.mul (parseInt v) (Int 60))
      /\ (localStorage w !! "pomodoroSessionsCompleted" = Some v ->
          sessionsCompleted s' = parseInt v)
      /\ (localStorage w !! "pomodoroTotalSeconds" = Some v ->
          totalSeconds s' = parseInt v)).
  { intros v Hv. repeat split; intros Hk.
    - rewrite Hf, (getItem_or_set _ v) by assumption. reflexivity.
    - rewrite Hb, (getItem_or_set _ v) by assumption. reflexivity.
    - rewrite Hs, (getItem_or_set _ v) by assumption. reflexivity.
    - rewrite Ht, (getItem_or_set _ v) by assumption. reflexivity. }
  split; [exact Hunset|]. split; [exact Hset|]. split; [|split].
  - intros v Hv Hnan. destruct (Hset v Hv) as (H1 & H2 & H3 & H4).
    repeat split; intros Hk.
    + rewrite (H1 Hk), Hnan. reflexivity.
    + rewrite (H2 Hk), Hnan. reflexivity.
    + rewrite (H3 Hk), Hnan. reflexivity.
    + rewrite (H4 Hk), Hnan. reflexivity.
  - reflexivity.
  - intros He. destruct Hunset as (H1 & H2 & H3 & H4).
    assert (Hu : forall k : string, unset k w).
    { intros k. left. rewrite He. apply lookup_empty. }
    rewrite H1, H2, H3, H4 by apply Hu. reflexivity.
Qed.

Lemma loadSettings_defaults_witness :
  (focusDuration (timer (loadSettings (page ∅))),
   breakDuration (timer (loadSettings (page ∅))),
   sessionsCompleted (timer (loadSettings (page ∅))),
   totalSeconds (timer (loadSettings (page ∅))))
  = (Int 1500, Int 300, Int 0, Int 0)
  /\ focusDuration (timer (loadSettings (page bad_store))) = NaN.
Proof.
  split.
  - destruct (loadSettings_defaults (page ∅)) as (_ & _ & _ & _ & H).
    exact (H eq_refl).
  - destruct (loadSettings_defaults (page bad_store)) as (_ & _ & H & _).
    destruct (H "abc"%string) as (Hf & _).
    + discriminate.
    + reflexivity.
    + apply Hf. reflexivity.
Defined.

(** ** The statistics along a sequence of events *)

Lemma num_le_refl (a : num) : num_le a a.
Proof. destruct a; simpl; [lia | exact I]. Qed.

Lemma num_le_trans (a b c : num) : num_le a b -> num_le b c -> num_le a c.
Proof. destruct a, b, c; simpl; try tauto. lia. Qed.

Lemma num_le_add (a : num) (d : Z) : 0 <= d -> num_le a (Num.add a (Int d)).
Proof. destruct a; simpl; [lia | trivial]. Qed.

Lemma num_le_not_lt (a b : num) : num_le a b -> Num.lt b a = false.
Proof.
  destruct a as [x|], b as [y|]; simpl; try reflexivity.
  intros H. apply Z.ltb_ge. exact H.
Qed.

Lemma num_le_int (a b : num) (x : Z) :
  num_le a b -> a = Int x -> exists y : Z, b = Int y /\ x <= y.
Proof.
  intros H ->. destruct b as [y|]; simpl in H; [eauto | contradiction].
Qed.

Lemma completeTimer_stats (w : world) :
  sessionsCompleted (timer (completeTimer w))
  = (if isBreak (timer w) then sessionsCompleted (timer w)
     else Num.add (sessionsCompleted (timer w)) (Int 1))
  /\ totalSeconds (timer (completeTimer w))
     = Num.add (totalSeconds (timer w)) (phaseDuration (timer w)).
Proof.
  destruct w as [s i t st fi bi]. destruct s as [r p b tr fd bd sc ts t0 pt].
  destruct b; split; reflexivity.
Qed.

Lemma step_durations (e : event) (w : world) :
  focusDuration (timer (step e w)) = focusDuration (timer w)
  /\ breakDuration (timer (step e w)) = breakDuration (timer w).
Proof.
  destruct e as [now|now| |now|now| ]; unfold step.
  - unfold startTimer. destruct (isRunning (timer w)); split; reflexivity.
  - unfold togglePause. destruct (isRunning (timer w)); split; reflexivity.
  - split; reflexivity.
  - destruct (Nat.eqb (intervals w) 0); [split; reflexivity|].
    unfold timerInterval. destruct (isRunning (timer w)); [|split; reflexivity].
    cbn -[recompute Num.strict_eq].
    destruct (Num.strict_eq _ _); [|split; reflexivity].
    unfold completeTimer. cbn -[recompute].
    destruct (isBreak (recompute now (timer w))); split; reflexivity.
  - destruct (Nat.eqb (timeouts w) 0); [split; reflexivity|].
    unfold autoStart, startTimer. cbn.
    destruct (isRunning (timer w)); split; reflexivity.
  - split; reflexivity.
Qed.

(** One event either leaves both statistics alone or is a phase
    completion, which adds the phase's duration to totalSeconds and, for a
    focus phase, 1 to sessionsCompleted. *)
Lemma step_stats (e : event) (w : world) :
  stats (timer (step e w)) = stats (timer w)
  \/ (completes e w
      /\ sessionsCompleted (timer (step e w))
         = (if isBreak (timer w) then sessionsCompleted (timer w)
            else Num.add (sessionsCompleted (timer w)) (Int 1))
      /\ totalSeconds (timer (step e w))
         = Num.add (totalSeconds (timer w)) (phaseDuration (timer w))).
Proof.
  destruct e as [now|now| |now|now| ]; unfold step.
  - left. unfold startTimer. destruct (isRunning (timer w)); reflexivity.
  - left. unfold togglePause. destruct (isRunning (timer w)); reflexivity.
  - left. reflexivity.
  - destruct (Nat.eqb_spec (intervals w) 0) as [Hi|Hi]; [left; reflexivity|].
    destruct (isRunning (timer w)) eqn:Hrun.
    + rewrite timerInterval_running by exact Hrun.
      destruct (Num.strict_eq _ _) eqn:Hz; [|left; reflexivity].
      right. apply strict_eq_zero in Hz.
      split; [exact (conj Hi (conj Hrun Hz))|].
      exact (completeTimer_stats (clearInterval (with_timer (recompute now) w))).
    + rewrite timerInterval_stopped by exact Hrun. left. reflexivity.
  - left. destruct (Nat.eqb (timeouts w) 0); [reflexivity|].
    unfold autoStart, startTimer. cbn.
    destruct (isRunning (timer w)); reflexivity.
  - left. reflexivity.
Qed.

Lemma step_stats_le (e : event) (w : world) (f b : Z) :
  focusDuration (timer w) = Int f -> breakDuration (timer w) = Int b ->
  0 < f -> 0 < b ->
  num_le (sessionsCompleted (timer w)) (sessionsCompleted (timer (step e w)))
  /\ num_le (totalSeconds (timer w)) (totalSeconds (timer (step e w))).
Proof.
  intros Hf Hb Hfp Hbp.
  destruct (step_stats e w) as [Heq | (_ & Hs & Ht)].
  - unfold stats in Heq. injection Heq as -> ->.
    split; apply num_le_refl.
  - rewrite Hs, Ht. unfold phaseDuration.
    destruct (isBreak (timer w)).
    + rewrite Hb. split; [apply num_le_refl | apply num_le_add; lia].
    + rewrite Hf. split; apply num_le_add; lia.
Qed.

Lemma run_durations (es : list event) (w : world) :
  focusDuration (timer (run es w)) = focusDuration (timer w)
  /\ breakDuration (timer (run es w)) = breakDuration (timer w).
Proof.
  revert w. induction es as [|e es IH]; intros w; [split; reflexivity|].
  change (run (e :: es) w) with (run es (step e w)).
  destruct (IH (step e w)) as [-> ->]. apply step_durations.
Qed.

Lemma run_stats_le (es : list event) (w : world) (f b : Z) :
  focusDuration (timer w) = Int f -> breakDuration (timer w) = Int b ->
  0 < f -> 0 < b ->
  num_le (sessionsCompleted (timer w)) (sessionsCompleted (timer (run es w)))
  /\ num_le (totalSeconds (timer w)) (totalSeconds (timer (run es w))).
Proof.
  revert w. induction es as [|e es IH]; intros w Hf Hb Hfp Hbp.
  - split; apply num_le_refl.
  - change (run (e :: es) w) with (run es (step e w)).
    destruct (step_durations e w) as [Hf' Hb'].
    destruct (step_stats_le e w f b Hf Hb Hfp Hbp) as [Hs1 Ht1].
    destruct (IH (step e w)) as [Hs2 Ht2]; try lia; try congruence.
    split; eapply num_le_trans; eassumption.
Qed.

(** C10. With positive focus and break durations, along every sequence of
    start, pause, reset, tick (and auto-start and save) events
    sessionsCompleted and totalSeconds never decrease; an event that changes
    one of them is a phase completion; reset leaves both as they are. *)
Theorem stats_only_grow_at_completion
    (es : list event) (w : world) (f b : Z) :
  focusDuration (timer w) = Int f -> breakDuration (timer w) = Int b ->
  0 < f -> 0 < b ->
  let w' := run es w in
  (num_le (sessionsCompleted (timer w)) (sessionsCompleted (timer w'))
   /\ num_le (totalSeconds (timer w)) (totalSeconds (timer w')))
  /\ (Num.lt (sessionsCompleted (timer w')) (sessionsCompleted (timer w)) = false
      /\ Num.lt (totalSeconds (timer w')) (totalSeconds (timer w)) = false)
  /\ (forall n t : Z,
      sessionsCompleted (timer w) = Int n -> totalSeconds (timer w) = Int t ->
      exists n' t' : Z,
        sessionsCompleted (timer w') = Int n' /\ n <= n'
        /\ totalSeconds (timer w') = Int t' /\ t <= t')
  /\ (forall e : event,
      stats (timer (step e w')) <> stats (timer w') -> completes e w')
  /\ (forall e : event,
      num_le (sessionsCompleted (timer w')) (sessionsCompleted (timer (step e w')))
      /\ num_le (totalSeconds (timer w')) (totalSeconds (timer (step e w'))))
  /\ stats (timer (step EvReset w')) = stats (timer w').
Proof.
  intros Hf Hb Hfp Hbp w'.
  destruct (run_stats_le es w f b Hf Hb Hfp Hbp) as [Hs Ht]. fold w' in Hs, Ht.
  split; [exact (conj Hs Ht)|].
  split; [split; apply num_le_not_lt; assumption|].
  split; [|split; [|split]].
  - intros n t Hn Hsec.
    destruct (num_le_int _ _ n Hs Hn) as (n' & Hn' & Hle).
    destruct (num_le_int _ _ t Ht Hsec) as (t' & Ht' & Hle').
    exists n', t'. auto.
  - intros e Hne. destruct (step_stats e w') as [Heq | (Hc & _)];
      [contradiction | exact Hc].
  - intros e. destruct (run_durations es w) as [Hf' Hb']. fold w' in Hf', Hb'.
    apply (step_stats_le e w' f b); congruence.
  - reflexivity.
Qed.

Lemma stats_only_grow_at_completion_witness :
  exists n' t' : Z,
    sessionsCompleted (timer (run [EvStart 0; EvTick 1500000; EvReset] (page ∅)))
    = Int n' /\ 0 <= n'
    /\ totalSeconds (timer (run [EvStart 0; EvTick 1500000; EvReset] (page ∅)))
       = Int t' /\ 0 <= t'.
Proof.
  destruct (stats_only_grow_at_completion
              [EvStart 0; EvTick 1500000; EvReset] (page ∅) 1500 300
              eq_refl eq_refl ltac:(lia) ltac:(lia))
    as (_ & _ & H & _).
  exact (H 0 0 eq_refl eq_refl).
Defined.

(** ** Numbers written and read back *)










(** ** Persistence across a reload *)




(** ** Stale and pending callbacks *)

Lemma run_cons (e : event) (es : list event) (w : world) :
  run (e :: es) w = run es (step e w).
Proof. reflexivity. Qed.

Lemma run_app (es1 es2 : list event) (w : world) :
  run (es1 ++ es2) w = run es2 (run es1 w).
Proof. unfold run. apply fold_left_app. Qed.

(** X3. Once the timer is not running (after a pause or a reset), the ticks
    of the intervals still alive change nothing in the timer state: each
    one only clears its own interval, until none is left. *)
Theorem stale_ticks_only_clear (ts : list Z) (w : world) :
  isRunning (timer w) = false ->
  let w' := run (map EvTick ts) w in
  timer w' = timer w
  /\ intervals w' = (intervals w - length ts)%nat
  /\ timeouts w' = timeouts w
  /\ localStorage w' = localStorage w.
Proof.
  revert w. induction ts as [|t ts IH]; intros w Hrun.
  - cbn. repeat split. lia.
  - cbn [map]. rewrite run_cons. cbv zeta.
    destruct (Nat.eqb_spec (intervals w) 0) as [Hi|Hi].
    + assert (Hs : step (EvTick t) w = w).
      { unfold step. rewrite Hi. reflexivity. }
      rewrite Hs. destruct (IH w Hrun) as (H1 & H2 & H3 & H4).
      repeat split; try assumption. rewrite H2, Hi. reflexivity.
    + assert (Hs : step (EvTick t) w = clearInterval w).
      { unfold step. destruct (Nat.eqb_spec (intervals w) 0); [contradiction|].
        apply timerInterval_stopped, Hrun. }
      rewrite Hs. destruct (IH (clearInterval w) Hrun) as (H1 & H2 & H3 & H4).
      repeat split; try assumption. rewrite H2. cbn [length intervals clearInterval].
      lia.
Qed.

Lemma stale_ticks_only_clear_witness :
  timer (run (map EvTick [5100; 5200]) paused_at_5s) = timer paused_at_5s
  /\ intervals (run (map EvTick [5100; 5200]) paused_at_5s) = 0%nat.
Proof.
  destruct (stale_ticks_only_clear [5100; 5200] paused_at_5s eq_refl)
    as (H1 & H2 & _).
  split; [exact H1 | exact H2].
Defined.

Lemma completeTimer_keeps_run (w : world) :
  isRunning (timer (completeTimer w)) = isRunning (timer w)
  /\ isPaused (timer (completeTimer w)) = isPaused (timer w)
  /\ startTime (timer (completeTimer w)) = startTime (timer w)
  /\ isBreak (timer (completeTimer w)) = negb (isBreak (timer w))
  /\ timeRemaining (timer (completeTimer w))
     = phaseDuration (timer (completeTimer w))
  /\ pausedTime (timer (completeTimer w)) = None
  /\ focusDuration (timer (completeTimer w)) = focusDuration (timer w)
  /\ breakDuration (timer (completeTimer w)) = breakDuration (timer w)
  /\ intervals (completeTimer w) = intervals w
  /\ timeouts (completeTimer w) = S (timeouts w).
Proof.
  destruct w as [s i t st fi bi]. destruct s as [r p b tr fd bd sc ts t0 pt].
  destruct b; repeat split.
Qed.

Lemma passive_step_frozen (e : event) (w : world) :
  passive e -> isRunning (timer w) = true -> intervals w = 0%nat ->
  timer (step e w) = timer w /\ intervals (step e w) = 0%nat.
Proof.
  intros Hp Hrun Hi. destruct e as [now|now| |now|now| ]; try contradiction.
  - unfold step. rewrite Hi. split; [reflexivity | exact Hi].
  - unfold step. destruct (Nat.eqb (timeouts w) 0); [split; [reflexivity | exact Hi]|].
    unfold autoStart. rewrite startTimer_running by exact Hrun.
    split; [reflexivity | exact Hi].
  - split; [reflexivity | exact Hi].
Qed.

(** X4. When the tick of the only live interval completes a phase, the
    timer is flagged running as before, with the old start time, the next
    phase entered at its full duration, no interval left and one auto-start
    pending.  From there no tick, auto-start or saveStats changes the timer
    state: the auto-start finds isRunning set and returns, so the next phase
    does not count down until the user pauses and resumes or resets. *)
Theorem completion_leaves_timer_idle_but_running
    (now : Z) (w : world) (es : list event) :
  isRunning (timer w) = true ->
  intervals w = 1%nat ->
  timeRemaining (recompute now (timer w)) = Int 0 ->
  Forall passive es ->
  let w1 := step (EvTick now) w in
  isRunning (timer w1) = true
  /\ startTime (timer w1) = startTime (timer w)
  /\ isBreak (timer w1) = negb (isBreak (timer w))
  /\ timeRemaining (timer w1) = phaseDuration (timer w1)
  /\ intervals w1 = 0%nat
  /\ timeouts w1 = S (timeouts w)
  /\ timer (run es w1) = timer w1
  /\ intervals (run es w1) = 0%nat.
Proof.
  intros Hrun Hi Hz Hes w1.
  assert (Hw1 : w1 = completeTimer (clearInterval (with_timer (recompute now) w))).
  { unfold w1, step. rewrite Hi. cbn [Nat.eqb].
    rewrite timerInterval_running by exact Hrun.
    rewrite Hz. reflexivity. }
  destruct (completeTimer_keeps_run
              (clearInterval (with_timer (recompute now) w)))
    as (K1 & _ & K3 & K4 & K5 & _ & _ & _ & K9 & K10).
  rewrite <- Hw1 in K1, K3, K4, K5, K9, K10.
  assert (R1 : isRunning (timer w1) = true) by (rewrite K1; exact Hrun).
  assert (I1 : intervals w1 = 0%nat).
  { rewrite K9. cbn [intervals clearInterval with_timer]. rewrite Hi. reflexivity. }
  split; [exact R1|]. split; [exact K3|]. split; [exact K4|].
  split; [exact K5|]. split; [exact I1|]. split; [exact K10|].
  clearbody w1. clear Hw1 K1 K3 K4 K5 K9 K10 Hz Hi Hrun.
  revert w1 R1 I1. induction Hes as [|e es He _ IH]; intros w1 R1 I1.
  - split; [reflexivity | exact I1].
  - rewrite run_cons.
    destruct (passive_step_frozen e w1 He R1 I1) as [Ht Hi].
    destruct (IH (step e w1)) as [Ht' Hi'].
    + rewrite Ht. exact R1.
    + exact Hi.
    + split; [rewrite Ht', Ht; reflexivity | exact Hi'].
Qed.

Lemma completion_leaves_timer_idle_but_running_witness :
  timer (run [EvAutoStart 1501000; EvTick 1501100; EvSaveStats]
           (step (EvTick 1500000) started))
  = timer (step (EvTick 1500000) started)
  /\ timeRemaining (timer (step (EvTick 1500000) started)) = Int 300.
Proof.
  destruct (completion_leaves_timer_idle_but_running 1500000 started
              [EvAutoStart 1501000; EvTick 1501100; EvSaveStats]
              eq_refl eq_refl eq_refl
              ltac:(repeat constructor))
    as (_ & _ & _ & _ & _ & _ & H & _).
  split; [exact H | reflexivity].
Defined.

(** ** Run flags and time stamps *)

Lemma running_cases (w : world) :
  {isRunning (timer w) = true} + {isRunning (timer w) = false}.
Proof. destruct (isRunning (timer w)); [left | right]; reflexivity. Qed.

Lemma togglePause_stopped (now : Z) (w : world) :
  isRunning (timer w) = false -> togglePause now w = w.
Proof. intros H. unfold togglePause. rewrite H. reflexivity. Qed.

Lemma togglePause_running (now : Z) (w : world) :
  isRunning (timer w) = true ->
  togglePause now w
  = with_timer
      (fun s =>
         set_pausedTime (Some (now - to_number (startTime s)))
           (set_isPaused true (set_isRunning false s)))
      w.
Proof. intros H. unfold togglePause. rewrite H. reflexivity. Qed.

Lemma startTimer_coherent (now : Z) (w : world) :
  coherent (timer w) -> coherent (timer (startTimer now w)).
Proof.
  intros H. destruct (running_cases w) as [Hr|Hr].
  - rewrite startTimer_running by exact Hr. exact H.
  - rewrite startTimer_stopped by exact Hr.
    repeat split; cbn; intros; discriminate.
Qed.

Lemma step_coherent (e : event) (w : world) :
  coherent (timer w) -> coherent (timer (step e w)).
Proof.
  intros H.
  destruct e as [now|now| |now|now| ]; unfold step.
  - apply startTimer_coherent, H.
  - destruct (running_cases w) as [Hr|Hr].
    + rewrite togglePause_running by exact Hr.
      repeat split; cbn; intros; discriminate.
    + rewrite togglePause_stopped by exact Hr. exact H.
  - repeat split; cbn; intros; discriminate.
  - destruct (Nat.eqb (intervals w) 0); [exact H|].
    destruct (running_cases w) as [Hr|Hr].
    + rewrite timerInterval_running by exact Hr.
      destruct (Num.strict_eq _ _); [|exact H].
      destruct H as (H1 & H2 & H3).
      destruct (completeTimer_keeps_run
                  (clearInterval (with_timer (recompute now) w)))
        as (K1 & K2 & K3 & _).
      unfold coherent. rewrite K1, K2, K3.
      cbn [timer clearInterval with_timer recompute set_timeRemaining
           isRunning isPaused startTime].
      repeat split; [exact H1 | exact H2 |].
      intros Hp. rewrite (H1 Hr) in Hp. discriminate.
    + rewrite timerInterval_stopped by exact Hr. exact H.
  - destruct (Nat.eqb (timeouts w) 0); [exact H|].
    unfold autoStart. apply (startTimer_coherent now (timeout_fired w)), H.
  - exact H.
Qed.

Lemma run_coherent (es : list event) (w : world) :
  coherent (timer w) -> coherent (timer (run es w)).
Proof.
  revert w. induction es as [|e es IH]; intros w H; [exact H|].
  rewrite run_cons. apply IH, step_coherent, H.
Qed.

(** X5. Along every sequence of events the run flags and the time stamps
    stay coherent: the timer is never running and paused at once, it has a
    start time whenever it runs and a paused time whenever it is paused.
    This holds from every coherent state on, and so from every freshly
    loaded page, whatever the store held. *)
Theorem run_keeps_coherent (es : list event) :
  (forall w : world, coherent (timer w) -> coherent (timer (run es w)))
  /\ (forall store : gmap string string,
      coherent (timer (run es (loadSettings (page store))))).
Proof.
  split.
  - intros w. apply run_coherent.
  - intros store. apply run_coherent.
    repeat split; cbn; intros; discriminate.
Qed.

Lemma run_keeps_coherent_witness :
  coherent (timer (run [EvStart 0; EvPause 5000; EvStart 9000] (page ∅))).
Proof.
  destruct (run_keeps_coherent [EvStart 0; EvPause 5000; EvStart 9000])
    as [H _].
  apply (H (page ∅)).
  repeat split; cbn; intros; discriminate.
Defined.

(** ** Pause and reset *)

(** X6. Pause does nothing on a timer that is not running, so a second
    pause right after a first one changes nothing: the elapsed time recorded
    by the first pause is kept. *)
Theorem togglePause_idempotent :
  (forall (now : Z) (w : world),
     isRunning (timer w) = false -> togglePause now w = w)
  /\ (forall (t1 t2 : Z) (w : world),
     togglePause t2 (togglePause t1 w) = togglePause t1 w)
  /\ (forall (t1 t2 : Z) (w : world),
     isRunning (timer w) = true ->
     pausedTime (timer (togglePause t2 (togglePause t1 w)))
     = Some (t1 - to_number (startTime (timer w)))).
Proof.
  split; [exact togglePause_stopped|]. split.
  - intros t1 t2 w. apply togglePause_stopped.
    destruct (running_cases w) as [Hr|Hr].
    + rewrite togglePause_running by exact Hr. reflexivity.
    + rewrite togglePause_stopped by exact Hr. exact Hr.
  - intros t1 t2 w Hr.
    rewrite (togglePause_stopped t2).
    + rewrite togglePause_running by exact Hr. reflexivity.
    + rewrite togglePause_running by exact Hr. reflexivity.
Qed.

Lemma togglePause_idempotent_witness :
  togglePause 7000 (page ∅) = page ∅
  /\ pausedTime (timer (togglePause 8000 (togglePause 5000 started)))
     = Some (5000 - 0).
Proof.
  destruct togglePause_idempotent as (Hs & _ & Hp).
  split.
  - apply (Hs 7000 (page ∅)). reflexivity.
  - apply (Hp 5000 8000 started). reflexivity.
Defined.

(** X7. What reset leaves does not depend on whether the timer was idle,
    running or paused, nor on when: a reset after a start and after a pause
    gives the timer state of a reset alone, and a second reset changes
    nothing.  Only the intervals a start created stay scheduled. *)
Theorem resetTimer_absorbs (now : Z) (w : world) :
  timer (resetTimer (startTimer now w)) = timer (resetTimer w)
  /\ timer (resetTimer (togglePause now w)) = timer (resetTimer w)
  /\ resetTimer (togglePause now w) = resetTimer w
  /\ resetTimer (resetTimer w) = resetTimer w
  /\ (intervals (resetTimer (startTimer now w))
      = if isRunning (timer w) then intervals w else S (intervals w)).
Proof.
  destruct (running_cases w) as [Hr|Hr].
  - rewrite startTimer_running, togglePause_running by exact Hr.
    rewrite Hr. repeat split.
  - rewrite startTimer_stopped, togglePause_stopped by exact Hr.
    rewrite Hr. repeat split.
Qed.

(** ** Bounds on the remaining time *)

Lemma bounded_later (f b t t' : Z) (s : timerState) :
  t <= t' -> bounded f b t s -> bounded f b t' s.
Proof.
  intros Hle (Hf & Hb & Hr & Hs & Hp & Hn).
  repeat split; try assumption.
  intros t0 H0. specialize (Hs t0 H0). lia.
Qed.

Lemma or_zero_nonneg (f b t : Z) (s : timerState) :
  bounded f b t s -> 0 <= or_zero (pausedTime s).
Proof.
  intros (_ & _ & _ & _ & Hp & _). rewrite or_zero_id.
  destruct (pausedTime s) as [p|]; simpl; [apply Hp; reflexivity | lia].
Qed.

Lemma startTimer_bounded (f b t now : Z) (w : world) :
  t <= now -> bounded f b t (timer w) ->
  bounded f b now (timer (startTimer now w)).
Proof.
  intros Hle H. destruct (running_cases w) as [Hr|Hr].
  - rewrite startTimer_running by exact Hr. apply (bounded_later f b t); assumption.
  - rewrite startTimer_stopped by exact Hr.
    assert (Hz := or_zero_nonneg f b t _ H).
    destruct H as (Hf & Hb & Hrem & Hs & Hp & Hn).
    repeat split; try assumption.
    + cbn. intros t0 [= <-]. lia.
    + cbn. discriminate.
Qed.

Lemma togglePause_bounded (f b t now : Z) (w : world) :
  t <= now -> bounded f b t (timer w) ->
  bounded f b now (timer (togglePause now w)).
Proof.
  intros Hle H. destruct (running_cases w) as [Hr|Hr].
  - rewrite togglePause_running by exact Hr.
    destruct H as (Hf & Hb & Hrem & Hs & Hp & Hn).
    repeat split; try assumption.
    + cbn. intros t0 H0. specialize (Hs t0 H0). lia.
    + cbn. intros p [= <-].
      destruct (startTime (timer w)) as [t0|] eqn:Hst.
      * specialize (Hs t0 eq_refl). simpl. lia.
      * exfalso. apply (Hn Hr). reflexivity.
    + cbn. discriminate.
  - rewrite togglePause_stopped by exact Hr.
    apply (bounded_later f b t); assumption.
Qed.

Lemma resetTimer_bounded (f b t : Z) (w : world) :
  0 <= f -> bounded f b t (timer w) -> bounded f b t (timer (resetTimer w)).
Proof.
  intros Hf0 (Hf & Hb & Hrem & Hs & Hp & Hn).
  repeat split; try assumption; cbn; try discriminate.
  exists f. split; [exact Hf | lia].
Qed.

Lemma completeTimer_bounded (f b t : Z) (w : world) :
  0 <= f -> 0 <= b ->
  bounded f b t (timer w) -> bounded f b t (timer (completeTimer w)).
Proof.
  intros Hf0 Hb0 (Hf & Hb & Hrem & Hs & Hp & Hn).
  destruct (completeTimer_keeps_run w)
    as (K1 & _ & K3 & K4 & K5 & K6 & K7 & K8 & _).
  unfold bounded. rewrite K1, K3, K5, K6, K7, K8.
  repeat split; try assumption; try discriminate.
  unfold phaseDuration. rewrite K4, K7, K8.
  destruct (isBreak (timer w)); cbn [negb].
  - exists f. split; [exact Hf | lia].
  - exists b. split; [exact Hb | lia].
Qed.

Lemma recompute_bounded (f b t now : Z) (s : timerState) :
  0 <= f -> 0 <= b -> t <= now -> isRunning s = true ->
  bounded f b t s -> bounded f b now (recompute now s).
Proof.
  intros Hf0 Hb0 Hle Hr (Hf & Hb & Hrem & Hs & Hp & Hn).
  destruct (startTime s) as [t0|] eqn:Hst; [|exfalso; apply (Hn Hr); reflexivity].
  specialize (Hs t0 eq_refl).
  assert (Hq : 0 <= (now - t0) / 1000) by (apply Z.div_pos; lia).
  repeat split; try assumption.
  - unfold recompute. rewrite Hst. cbn -[Z.sub Z.div Z.max].
    rewrite Hf, Hb. destruct (isBreak s); cbn -[Z.sub Z.div Z.max].
    + eexists. split; [reflexivity | lia].
    + eexists. split; [reflexivity | lia].
  - cbn. rewrite Hst. intros t1 [= <-]. lia.
  - cbn. rewrite Hst. discriminate.
Qed.

Lemma timerInterval_bounded (f b t now : Z) (w : world) :
  0 <= f -> 0 <= b -> t <= now ->
  bounded f b t (timer w) -> bounded f b now (timer (timerInterval now w)).
Proof.
  intros Hf0 Hb0 Hle H. destruct (running_cases w) as [Hr|Hr].
  - rewrite timerInterval_running by exact Hr.
    assert (H' := recompute_bounded f b t now (timer w) Hf0 Hb0 Hle Hr H).
    destruct (Num.strict_eq _ _).
    + apply completeTimer_bounded; assumption.
    + exact H'.
  - rewrite timerInterval_stopped by exact Hr.
    apply (bounded_later f b t); assumption.
Qed.

Lemma run_bounded (f b : Z) (es : list event) :
  0 <= f -> 0 <= b ->
  forall (t : Z) (w : world),
    clock_from t es -> bounded f b t (timer w) ->
    exists t' : Z, bounded f b t' (timer (run es w)).
Proof.
  intros Hf0 Hb0. induction es as [|e es IH]; intros t w Hc H.
  - exists t. exact H.
  - rewrite run_cons.
    destruct e as [now|now| |now|now| ]; cbn in Hc.
    + destruct Hc as [Hle Hc]. apply (IH now); [exact Hc|].
      apply (startTimer_bounded f b t); assumption.
    + destruct Hc as [Hle Hc]. apply (IH now); [exact Hc|].
      apply (togglePause_bounded f b t); assumption.
    + apply (IH t); [exact Hc|]. apply resetTimer_bounded; assumption.
    + destruct Hc as [Hle Hc]. apply (IH now); [exact Hc|].
      unfold step. destruct (Nat.eqb (intervals w) 0).
      * apply (bounded_later f b t); assumption.
      * apply (timerInterval_bounded f b t); assumption.
    + destruct Hc as [Hle Hc]. apply (IH now); [exact Hc|].
      unfold step. destruct (Nat.eqb (timeouts w) 0).
      * apply (bounded_later f b t); assumption.
      * unfold autoStart.
        apply (startTimer_bounded f b t now (timeout_fired w)); assumption.
    + apply (IH t); [exact Hc|]. exact H.
Qed.

(** X8. With durations f and b that are not negative and a clock that never
    goes back, timeRemaining stays an integer between 0 and max(f, b) along
    every sequence of events, from any idle state in which it is so. *)
Theorem timeRemaining_stays_in_range
    (f b r t : Z) (es : list event) (w : world) :
  0 <= f -> 0 <= b ->
  focusDuration (timer w) = Int f -> breakDuration (timer w) = Int b ->
  timeRemaining (timer w) = Int r -> 0 <= r <= Z.max f b ->
  isRunning (timer w) = false ->
  startTime (timer w) = None -> pausedTime (timer w) = None ->
  clock_from t es ->
  exists r' : Z,
    timeRemaining (timer (run es w)) = Int r' /\ 0 <= r' <= Z.max f b.
Proof.
  intros Hf0 Hb0 Hf Hb Hr Hrange Hrun Hst Hpt Hc.
  destruct (run_bounded f b es Hf0 Hb0 t w Hc) as (t' & H).
  - repeat split; try assumption.
    + exists r. split; [exact Hr | lia].
    + rewrite Hst. discriminate.
    + rewrite Hpt. discriminate.
    + rewrite Hrun. discriminate.
  - destruct H as (_ & _ & Hrem & _). exact Hrem.
Qed.

Lemma timeRemaining_stays_in_range_witness :
  exists r' : Z,
    timeRemaining
      (timer (run [EvStart 0; EvTick 61000; EvPause 70000; EvStart 200000;
                   EvTick 300000; EvReset] (page ∅))) = Int r'
    /\ 0 <= r' <= Z.max 1500 300.
Proof.
  apply (timeRemaining_stays_in_range 1500 300 1500 0
           [EvStart 0; EvTick 61000; EvPause 70000; EvStart 200000;
            EvTick 300000; EvReset] (page ∅));
    try reflexivity; try lia.
  simpl; lia.
Defined.

(** ** A completed phase, then pause and resume *)

Lemma recompute_zero_iff (now d : Z) (s : timerState) :
  phaseDuration s = Int d ->
  (timeRemaining (recompute now s) = Int 0
   <-> d <= (now - to_number (startTime s)) / 1000).
Proof.
  intros Hd.
  assert (H : timeRemaining (recompute now s)
              = Int (Z.max 0 (d - (now - to_number (startTime s)) / 1000))).
  { unfold recompute. fold (phaseDuration s). rewrite Hd. reflexivity. }
  rewrite H. split.
  - intros [= Hm]. lia.
  - intros Hle. f_equal. lia.
Qed.

(** X9. Completion keeps the start time of the phase that ended.  So when
    a focus phase of f seconds has completed and the user pauses and
    resumes, at any times, the first tick after the resume finds at least f
    seconds elapsed: with a break of b <= f seconds the break completes at
    once, its b seconds are added to totalSeconds, and the timer is back in
    the focus phase with f seconds remaining. *)
Theorem break_skipped_by_pause_resume
    (n t1 t2 x f b : Z) (w : world) :
  isRunning (timer w) = true ->
  isBreak (timer w) = false ->
  focusDuration (timer w) = Int f ->
  breakDuration (timer w) = Int b ->
  b <= f ->
  timeRemaining (recompute n (timer w)) = Int 0 ->
  n <= t1 -> 0 <= x ->
  let w1 := timerInterval n w in
  let w3 := startTimer t2 (togglePause t1 w1) in
  let w4 := timerInterval (t2 + x) w3 in
  (isBreak (timer w1) = true /\ timeRemaining (timer w1) = Int b
   /\ startTime (timer w1) = startTime (timer w))
  /\ timeRemaining (recompute (t2 + x) (timer w3)) = Int 0
  /\ isBreak (timer w4) = false
  /\ timeRemaining (timer w4) = Int f
  /\ sessionsCompleted (timer w4)
     = Num.add (sessionsCompleted (timer w)) (Int 1)
  /\ totalSeconds (timer w4)
     = Num.add (Num.add (totalSeconds (timer w)) (Int f)) (Int b).
Proof.
  intros Hrun Hfocus Hf Hb Hbf Hz Hn Hx w1 w3 w4.
  set (t0 := to_number (startTime (timer w))).
  assert (Hq : f <= (n - t0) / 1000).
  { apply (recompute_zero_iff n f (timer w)); [|exact Hz].
    unfold phaseDuration. rewrite Hfocus. exact Hf. }
  (* the completed focus phase *)
  set (wc := clearInterval (with_timer (recompute n) w)).
  assert (Hw1 : w1 = completeTimer wc).
  { unfold w1. rewrite timerInterval_running by exact Hrun.
    rewrite Hz. reflexivity. }
  destruct (completeTimer_keeps_run wc)
    as (K1 & _ & K3 & K4 & K5 & _ & K7 & K8 & _).
  destruct (completeTimer_stats wc) as [S1 T1].
  rewrite <- Hw1 in K1, K3, K4, K5, K7, K8, S1, T1.
  change (isRunning (timer wc)) with (isRunning (timer w)) in K1.
  change (startTime (timer wc)) with (startTime (timer w)) in K3.
  change (isBreak (timer wc)) with (isBreak (timer w)) in K4, S1.
  change (focusDuration (timer wc)) with (focusDuration (timer w)) in K7.
  change (breakDuration (timer wc)) with (breakDuration (timer w)) in K8.
  change (sessionsCompleted (timer wc)) with (sessionsCompleted (timer w)) in S1.
  change (totalSeconds (timer wc)) with (totalSeconds (timer w)) in T1.
  change (phaseDuration (timer wc)) with (phaseDuration (timer w)) in T1.
  rewrite Hrun in K1. rewrite Hfocus in K4, S1. cbn [negb] in K4.
  rewrite Hf in K7. rewrite Hb in K8.
  assert (P1 : phaseDuration (timer w1) = Int b).
  { unfold phaseDuration. rewrite K4. exact K8. }
  rewrite P1 in K5.
  unfold phaseDuration in T1. rewrite Hfocus, Hf in T1.
  split; [split; [exact K4 | split; [exact K5 | exact K3]]|].
  (* pause and resume *)
  set (w2 := togglePause t1 w1).
  assert (Hw2 : w2 = with_timer
                       (fun s =>
                          set_pausedTime (Some (t1 - to_number (startTime s)))
                            (set_isPaused true (set_isRunning false s))) w1).
  { unfold w2. apply togglePause_running. exact K1. }
  assert (R2 : isRunning (timer w2) = false) by (rewrite Hw2; reflexivity).
  assert (Hw3 : w3 = setInterval
                       (with_timer
                          (fun s =>
                             set_startTime (Some (t2 - or_zero (pausedTime s)))
                               (set_isPaused false (set_isRunning true s))) w2)).
  { unfold w3. fold w2. apply startTimer_stopped. exact R2. }
  assert (R3 : isRunning (timer w3) = true) by (rewrite Hw3; reflexivity).
  assert (St3 : to_number (startTime (timer w3)) = t2 - (t1 - t0)).
  { rewrite Hw3. cbn -[Z.sub or_zero]. rewrite or_zero_id.
    rewrite Hw2. cbn -[Z.sub]. rewrite K3. reflexivity. }
  assert (B3 : isBreak (timer w3) = true).
  { rewrite Hw3, Hw2. exact K4. }
  assert (F3 : focusDuration (timer w3) = Int f).
  { rewrite Hw3, Hw2. exact K7. }
  assert (D3 : breakDuration (timer w3) = Int b).
  { rewrite Hw3, Hw2. exact K8. }
  assert (S3 : sessionsCompleted (timer w3)
               = Num.add (sessionsCompleted (timer w)) (Int 1)).
  { rewrite Hw3, Hw2. exact S1. }
  assert (T3 : totalSeconds (timer w3)
               = Num.add (totalSeconds (timer w)) (Int f)).
  { rewrite Hw3, Hw2. exact T1. }
  assert (P3 : phaseDuration (timer w3) = Int b).
  { unfold phaseDuration. rewrite B3. exact D3. }
  assert (Z3 : timeRemaining (recompute (t2 + x) (timer w3)) = Int 0).
  { apply (recompute_zero_iff (t2 + x) b (timer w3) P3).
    rewrite St3.
    assert ((n - t0) / 1000 <= (t2 + x - (t2 - (t1 - t0))) / 1000)
      by (apply Z.div_le_mono; lia).
    lia. }
  split; [exact Z3|].
  (* the tick after the resume completes the break *)
  set (wd := clearInterval (with_timer (recompute (t2 + x)) w3)).
  assert (Hw4 : w4 = completeTimer wd).
  { unfold w4. rewrite timerInterval_running by exact R3.
    rewrite Z3. reflexivity. }
  destruct (completeTimer_keeps_run wd)
    as (_ & _ & _ & L4 & L5 & _ & L7 & _).
  destruct (completeTimer_stats wd) as [S4 T4].
  rewrite <- Hw4 in L4, L5, L7, S4, T4.
  change (isBreak (timer wd)) with (isBreak (timer w3)) in L4, S4.
  change (focusDuration (timer wd)) with (focusDuration (timer w3)) in L7.
  change (sessionsCompleted (timer wd)) with (sessionsCompleted (timer w3)) in S4.
  change (totalSeconds (timer wd)) with (totalSeconds (timer w3)) in T4.
  change (phaseDuration (timer wd)) with (phaseDuration (timer w3)) in T4.
  rewrite B3 in L4, S4. cbn [negb] in L4.
  rewrite F3 in L7. rewrite S3 in S4. rewrite T3, P3 in T4.
  split; [exact L4|]. split.
  - rewrite L5. unfold phaseDuration. rewrite L4. exact L7.
  - split; [exact S4 | exact T4].
Qed.

Lemma break_skipped_by_pause_resume_witness :
  isBreak (timer (timerInterval (1700000 + 100)
                    (startTimer 1700000
                       (togglePause 1600000
                          (timerInterval 1500000 started))))) = false
  /\ totalSeconds (timer (timerInterval (1700000 + 100)
                            (startTimer 1700000
                               (togglePause 1600000
                                  (timerInterval 1500000 started)))))
     = Num.add (Num.add (totalSeconds (timer started)) (Int 1500)) (Int 300).
Proof.
  destruct (break_skipped_by_pause_resume 1500000 1600000 1700000 100
              1500 300 started eq_refl eq_refl eq_refl eq_refl
              ltac:(lia) eq_refl ltac:(lia) ltac:(lia))
    as (_ & _ & H1 & _ & _ & H2).
  split; [exact H1 | exact H2].
Defined.

(** ** The displayed time *)













Example formatTime_examples :
  formatTime (Int 1500) = "25:00"%string
  /\ formatTime (Int 299) = "04:59"%string
  /\ formatTime (Int 6000) = "100:00"%string
  /\ formatTime NaN = "NaN:NaN"%string
  /\ formatTime (Int (-1)) = "-1:-1"%string.
Proof. repeat split; reflexivity. Qed.

(** X11. For a total of t >= 0 seconds updateStats shows the whole hours
    and the whole minutes of the rest, so never more than the real total
    and less than a minute short of it; the hours are shown only from one
    hour on. *)
Theorem totalTime_text_rounds_down (t : Z) :
  0 <= t ->
  let h := t / 3600 in
  let m := (t mod 3600) / 60 in
  totalTime_text (Int t)
  = (if t <? 3600 then Num.to_string (Int m) +:+ "m"
     else Num.to_string (Int h) +:+ "h " +:+ Num.to_string (Int m) +:+ "m")
  /\ 0 <= m < 60
  /\ 3600 * h + 60 * m <= t < 3600 * h + 60 * m + 60
  /\ (t < 3600 -> m = t / 60).
Proof.
  intros Ht h m.
  assert (Hmod : 0 <= t mod 3600 < 3600) by (apply Z.mod_pos_bound; lia).
  assert (Hm : 0 <= m < 60).
  { unfold m. split; [apply Z.div_pos; lia | apply Z.div_lt_upper_bound; lia]. }
  assert (Hdm : t = 3600 * h + t mod 3600) by (apply Z.div_mod; lia).
  assert (Hdm2 : t mod 3600 = 60 * m + (t mod 3600) mod 60)
    by (apply Z.div_mod; lia).
  assert (Hr : 0 <= (t mod 3600) mod 60 < 60) by (apply Z.mod_pos_bound; lia).
  split; [|split; [exact Hm|split; [lia|]]].
  - unfold totalTime_text, num_floor_div, num_rem.
    rewrite Z.rem_mod_nonneg by lia. fold h m. cbn [Num.lt].
    destruct (Z.ltb_spec t 3600) as [Hlt|Hge].
    + assert (Hh : h = 0) by (apply Z.div_small; lia).
      rewrite Hh. reflexivity.
    + assert (Hh : 0 < h) by (apply Z.div_str_pos; lia).
      apply Z.ltb_lt in Hh. rewrite Hh. reflexivity.
  - intros Hlt. unfold m. rewrite Z.mod_small by lia. reflexivity.
Qed.

Lemma totalTime_text_rounds_down_witness :
  totalTime_text (Int 5459) = "1h 30m"%string.
Proof.
  destruct (totalTime_text_rounds_down 5459 ltac:(lia)) as (H & _).
  rewrite H. reflexivity.
Defined.

(** ** The page functions and the timer functions *)

(** Each page function does to the model what the timer function of the
    same name does. *)
Lemma page_model_startTimer (now : Z) (p : screen) :
  model (Page.startTimer now p) = startTimer now (model p).
Proof.
  unfold Page.startTimer, startTimer.
  destruct (isRunning (timer (model p))); reflexivity.
Qed.

Lemma page_model_togglePause (now : Z) (p : screen) :
  model (Page.togglePause now p) = togglePause now (model p).
Proof.
  unfold Page.togglePause, togglePause.
  destruct (isRunning (timer (model p))); reflexivity.
Qed.

Lemma page_model_resetTimer (p : screen) :
  model (Page.resetTimer p) = resetTimer (model p).
Proof. reflexivity. Qed.

Lemma page_model_completeTimer (p : screen) :
  model (Page.completeTimer p) = completeTimer (model p).
Proof.
  destruct p as [[s i t st fi bi] d dm].
  destruct s as [r pa b tr fd bd sc ts t0 pt].
  destruct b; reflexivity.
Qed.

Lemma page_model_timerInterval (now : Z) (p : screen) :
  model (Page.timerInterval now p) = timerInterval now (model p).
Proof.
  unfold Page.timerInterval, timerInterval.
  destruct (isRunning (timer (model p))); cbn [negb]; [|reflexivity].
  change (timeRemaining (timer (model
            (Page.updateDisplay (upd_timer (recompute now) p)))))
    with (timeRemaining (timer (with_timer (recompute now) (model p)))).
  destruct (Num.strict_eq _ _); [|reflexivity].
  rewrite page_model_completeTimer. reflexivity.
Qed.

Lemma page_model_autoStart (now : Z) (p : screen) :
  model (Page.autoStart now p) = autoStart now (model p).
Proof. unfold Page.autoStart. rewrite page_model_startTimer. reflexivity. Qed.

Lemma page_model_saveSettings (p : screen) :
  model (Page.saveSettings p) = saveSettings (model p).
Proof. reflexivity. Qed.

Lemma page_model_loadSettings (p : screen) :
  model (Page.loadSettings p) = loadSettings (model p).
Proof. reflexivity. Qed.

Lemma page_model_saveStats (p : screen) :
  model (Page.saveStats p) = saveStats (model p).
Proof. reflexivity. Qed.

Lemma page_running_cases (p : screen) :
  {isRunning (timer (model p)) = true} + {isRunning (timer (model p)) = false}.
Proof. apply running_cases. Qed.

Lemma page_startTimer_running (now : Z) (p : screen) :
  isRunning (timer (model p)) = true -> Page.startTimer now p = p.
Proof. intros H. unfold Page.startTimer. rewrite H. reflexivity. Qed.

Lemma page_togglePause_stopped (now : Z) (p : screen) :
  isRunning (timer (model p)) = false -> Page.togglePause now p = p.
Proof. intros H. unfold Page.togglePause. rewrite H. reflexivity. Qed.

Lemma page_timerInterval_stopped (now : Z) (p : screen) :
  isRunning (timer (model p)) = false ->
  Page.timerInterval now p = upd_model clearInterval p.
Proof. intros H. unfold Page.timerInterval. rewrite H. reflexivity. Qed.

Lemma page_timerInterval_running (now : Z) (p : screen) :
  isRunning (timer (model p)) = true ->
  Page.timerInterval now p
  = if Num.strict_eq (timeRemaining (recompute now (timer (model p)))) (Int 0)
    then Page.completeTimer
           (upd_model clearInterval
              (Page.updateDisplay (upd_timer (recompute now) p)))
    else Page.updateDisplay (upd_timer (recompute now) p).
Proof. intros H. unfold Page.timerInterval. rewrite H. reflexivity. Qed.

Lemma page_run_cons (e : Page.event) (es : list Page.event) (p : screen) :
  Page.run (e :: es) p = Page.run es (Page.step e p).
Proof. reflexivity. Qed.

Lemma page_run_invariant (I : screen -> Prop) :
  (forall (e : Page.event) (p : screen), I p -> I (Page.step e p)) ->
  forall (es : list Page.event) (p : screen), I p -> I (Page.run es p).
Proof.
  intros Hstep es. induction es as [|e es IH]; intros p Hp; [exact Hp|].
  rewrite page_run_cons. apply IH, Hstep, Hp.
Qed.

(** ** What the page shows *)

Lemma updateDisplay_synced (p : screen) :
  display_synced (Page.updateDisplay p).
Proof. split; reflexivity. Qed.

Lemma completeTimer_synced (p : screen) :
  display_synced (Page.completeTimer p).
Proof.
  destruct p as [[s i t st fi bi] d dm].
  destruct s as [r pa b tr fd bd sc ts t0 pt].
  destruct b; split; reflexivity.
Qed.

Lemma step_display_synced (e : Page.event) (p : screen) :
  display_synced p -> display_synced (Page.step e p).
Proof.
  intros H. destruct e as [now|now| | |v|v|now|now| ]; unfold Page.step.
  - destruct (startBtn_disabled (view p)); [exact H|].
    destruct (page_running_cases p) as [Hr|Hr].
    + rewrite page_startTimer_running by exact Hr. exact H.
    + unfold Page.startTimer. rewrite Hr. exact H.
  - destruct (pauseBtn_disabled (view p)); [exact H|].
    destruct (page_running_cases p) as [Hr|Hr].
    + unfold Page.togglePause. rewrite Hr. exact H.
    + rewrite page_togglePause_stopped by exact Hr. exact H.
  - apply updateDisplay_synced.
  - unfold Page.themeClick, Page.applyTheme. cbn [isDarkMode set_isDarkMode].
    destruct (negb (isDarkMode p)); exact H.
  - destruct (focusInput_disabled (view p)); [exact H|].
    apply updateDisplay_synced.
  - destruct (breakInput_disabled (view p)); [exact H|].
    apply updateDisplay_synced.
  - destruct (Nat.eqb (intervals (model p)) 0); [exact H|].
    destruct (page_running_cases p) as [Hr|Hr].
    + rewrite page_timerInterval_running by exact Hr.
      destruct (Num.strict_eq _ _).
      * apply completeTimer_synced.
      * apply updateDisplay_synced.
    + rewrite page_timerInterval_stopped by exact Hr. exact H.
  - destruct (Nat.eqb (timeouts (model p)) 0); [exact H|].
    unfold Page.autoStart.
    destruct (page_running_cases (upd_model timeout_fired p)) as [Hr|Hr].
    + rewrite page_startTimer_running by exact Hr. exact H.
    + unfold Page.startTimer. rewrite Hr. exact H.
  - exact H.
Qed.

(** X12. After the page has loaded, the time shown is formatTime of
    timeRemaining and the label names the current phase, after every
    sequence of clicks, input changes, ticks, auto-starts and saves: every
    path that changes timeRemaining or the phase ends in updateDisplay. *)
Theorem display_always_synced
    (es : list Page.event) (prefersDark : bool)
    (store : gmap string string) (d : dom) :
  display_synced (Page.run es (Page.onLoad prefersDark (Page.fresh store d))).
Proof.
  apply (page_run_invariant display_synced step_display_synced).
  apply updateDisplay_synced.
Qed.

Lemma page_completeTimer_focus (p : screen) :
  isBreak (timer (model p)) = false ->
  stats_synced (Page.completeTimer p).
Proof.
  destruct p as [[s i t st fi bi] d dm].
  destruct s as [r pa b tr fd bd sc ts t0 pt].
  cbn. intros ->. split; reflexivity.
Qed.

Lemma page_completeTimer_break (p : screen) :
  isBreak (timer (model p)) = true ->
  sessionCount (view (Page.completeTimer p)) = sessionCount (view p)
  /\ totalTime (view (Page.completeTimer p)) = totalTime (view p)
  /\ sessionsCompleted (timer (model (Page.completeTimer p)))
     = sessionsCompleted (timer (model p))
  /\ totalSeconds (timer (model (Page.completeTimer p)))
     = Num.add (totalSeconds (timer (model p))) (breakDuration (timer (model p)))
  /\ isBreak (timer (model (Page.completeTimer p))) = false.
Proof.
  destruct p as [[s i t st fi bi] d dm].
  destruct s as [r pa b tr fd bd sc ts t0 pt].
  cbn. intros ->. repeat split.
Qed.

Lemma step_stats_synced (e : Page.event) (p : screen) :
  stats_synced p -> stats_synced (Page.step e p).
Proof.
  intros H. destruct e as [now|now| | |v|v|now|now| ]; unfold Page.step.
  - destruct (startBtn_disabled (view p)); [exact H|].
    unfold Page.startTimer.
    destruct (isRunning (timer (model p))); exact H.
  - destruct (pauseBtn_disabled (view p)); [exact H|].
    unfold Page.togglePause.
    destruct (isRunning (timer (model p))); exact H.
  - exact H.
  - unfold Page.themeClick, Page.applyTheme. cbn [isDarkMode set_isDarkMode].
    destruct (negb (isDarkMode p)); exact H.
  - destruct (focusInput_disabled (view p)); [exact H|]. exact H.
  - destruct (breakInput_disabled (view p)); [exact H|]. exact H.
  - destruct (Nat.eqb (intervals (model p)) 0); [exact H|].
    destruct (page_running_cases p) as [Hr|Hr].
    + rewrite page_timerInterval_running by exact Hr.
      destruct (Num.strict_eq _ _); [|exact H].
      set (q := upd_model clearInterval
                  (Page.updateDisplay (upd_timer (recompute now) p))).
      destruct (isBreak (timer (model q))) eqn:Hb.
      * destruct (page_completeTimer_break q Hb) as (V1 & _ & M1 & _ & B1).
        destruct H as [Hs _]. split.
        -- rewrite V1, M1. exact Hs.
        -- rewrite B1. discriminate.
      * apply page_completeTimer_focus, Hb.
    + rewrite page_timerInterval_stopped by exact Hr. exact H.
  - destruct (Nat.eqb (timeouts (model p)) 0); [exact H|].
    unfold Page.autoStart, Page.startTimer. cbn [model upd_model timer timeout_fired].
    destruct (isRunning (timer (model p))); exact H.
  - exact H.
Qed.

(** X13. After the page has loaded the session count shown is always the
    one of the timer state, and the total time shown is the one of the timer
    state whenever the timer is in a break.  It is not in general: when a
    break completes, its seconds are added to totalSeconds but the text
    shown stays what it was, since only the completion of a focus phase
    calls updateStats. *)
Theorem stats_shown_lag_after_break :
  (forall (es : list Page.event) (prefersDark : bool)
          (store : gmap string string) (d : dom),
     stats_synced
       (Page.run es (Page.onLoad prefersDark (Page.fresh store d))))
  /\ (forall (now : Z) (p : screen),
      isRunning (timer (model p)) = true ->
      isBreak (timer (model p)) = true ->
      timeRemaining (recompute now (timer (model p))) = Int 0 ->
      let p' := Page.timerInterval now p in
      totalTime (view p') = totalTime (view p)
      /\ totalSeconds (timer (model p'))
         = Num.add (totalSeconds (timer (model p)))
             (breakDuration (timer (model p)))).
Proof.
  split.
  - intros es prefersDark store d.
    apply (page_run_invariant stats_synced step_stats_synced).
    unfold Page.onLoad, Page.setupTheme, Page.applyTheme.
    cbn [isDarkMode set_isDarkMode].
    match goal with |- context [if ?c then _ else _] => destruct c end;
      split; reflexivity.
  - intros now p Hr Hb Hz p'. unfold p'.
    rewrite page_timerInterval_running by exact Hr. rewrite Hz.
    cbn [Num.strict_eq Z.eqb].
    destruct (page_completeTimer_break
                (upd_model clearInterval
                   (Page.updateDisplay (upd_timer (recompute now) p))) Hb)
      as (_ & V2 & _ & M2 & _).
    split; [exact V2 | exact M2].
Qed.

Lemma stats_shown_lag_after_break_witness :
  totalTime (view (Page.timerInterval 1500000
                     (Screen (with_timer (set_isBreak true) started)
                        (Dom "" "" "" "25m" true "" false true true false "")
                        false)))
  = "25m"%string.
Proof.
  destruct stats_shown_lag_after_break as [_ H].
  destruct (H 1500000
              (Screen (with_timer (set_isBreak true) started)
                 (Dom "" "" "" "25m" true "" false true true false "")
                 false) eq_refl eq_refl eq_refl) as [Hv _].
  exact Hv.
Defined.

(** ** Buttons and inputs *)

Lemma step_buttons_follow (e : Page.event) (p : screen) :
  buttons_follow p -> buttons_follow (Page.step e p).
Proof.
  intros H. destruct e as [now|now| | |v|v|now|now| ]; unfold Page.step.
  - destruct (startBtn_disabled (view p)); [exact H|].
    unfold Page.startTimer.
    destruct (isRunning (timer (model p))); [exact H | split; reflexivity].
  - destruct (pauseBtn_disabled (view p)); [exact H|].
    unfold Page.togglePause.
    destruct (isRunning (timer (model p))); [split; reflexivity | exact H].
  - split; reflexivity.
  - unfold Page.themeClick, Page.applyTheme. cbn [isDarkMode set_isDarkMode].
    destruct (negb (isDarkMode p)); exact H.
  - destruct (focusInput_disabled (view p)); exact H.
  - destruct (breakInput_disabled (view p)); exact H.
  - destruct (Nat.eqb (intervals (model p)) 0); [exact H|].
    destruct (page_running_cases p) as [Hr|Hr].
    + rewrite page_timerInterval_running by exact Hr.
      destruct (Num.strict_eq _ _); [|exact H].
      destruct p as [[s i t st fi bi] d dm].
      destruct s as [r pa b tr fd bd sc ts t0 pt].
      destruct b; exact H.
    + rewrite page_timerInterval_stopped by exact Hr. exact H.
  - destruct (Nat.eqb (timeouts (model p)) 0); [exact H|].
    unfold Page.autoStart, Page.startTimer. cbn [model upd_model timer timeout_fired].
    destruct (isRunning (timer (model p))); [exact H | split; reflexivity].
  - exact H.
Qed.

(** X14. Once the two buttons agree with the run state (start disabled
    exactly while the timer runs, pause exactly while it does not), they do
    so after every further event; a reset makes them agree whatever the
    document showed before, and so does every start that takes effect.
    After a completed phase, which leaves the timer flagged running, start
    therefore stays disabled. *)
Theorem buttons_follow_run_state :
  (forall (es : list Page.event) (p : screen),
     buttons_follow p -> buttons_follow (Page.run es p))
  /\ (forall (es : list Page.event) (p : screen),
      buttons_follow (Page.run es (Page.resetTimer p)))
  /\ (forall (es : list Page.event) (now : Z) (p : screen),
      isRunning (timer (model p)) = false ->
      buttons_follow (Page.run es (Page.startTimer now p))).
Proof.
  split; [|split].
  - apply (page_run_invariant buttons_follow step_buttons_follow).
  - intros es p.
    apply (page_run_invariant buttons_follow step_buttons_follow).
    split; reflexivity.
  - intros es now p Hr.
    apply (page_run_invariant buttons_follow step_buttons_follow).
    unfold Page.startTimer. rewrite Hr. split; reflexivity.
Qed.

Lemma buttons_follow_run_state_witness :
  buttons_follow
    (Page.run [Page.Tick 1500000; Page.ClickPause 1600000]
       (Page.startTimer 0 (Page.fresh ∅ (Dom "" "" "" "" false "" false false false false "")))).
Proof.
  destruct buttons_follow_run_state as (_ & _ & H).
  apply (H [Page.Tick 1500000; Page.ClickPause 1600000] 0
           (Page.fresh ∅ (Dom "" "" "" "" false "" false false false false ""))).
  reflexivity.
Defined.

Lemma step_inputs_locked (e : Page.event) (p : screen) :
  inputs_locked p -> inputs_locked (Page.step e p).
Proof.
  intros H. destruct e as [now|now| | |v|v|now|now| ]; unfold Page.step.
  - destruct (startBtn_disabled (view p)); [exact H|].
    unfold Page.startTimer.
    destruct (isRunning (timer (model p))); [exact H|].
    intros _. split; reflexivity.
  - destruct (pauseBtn_disabled (view p)); [exact H|].
    destruct (page_running_cases p) as [Hr|Hr].
    + unfold Page.togglePause. rewrite Hr. cbn [negb].
      intros _. apply H. left. exact Hr.
    + rewrite page_togglePause_stopped by exact Hr. exact H.
  - intros [Hc|Hc]; discriminate Hc.
  - unfold Page.themeClick, Page.applyTheme. cbn [isDarkMode set_isDarkMode].
    destruct (negb (isDarkMode p)); exact H.
  - destruct (focusInput_disabled (view p)); exact H.
  - destruct (breakInput_disabled (view p)); exact H.
  - destruct (Nat.eqb (intervals (model p)) 0); [exact H|].
    destruct (page_running_cases p) as [Hr|Hr].
    + rewrite page_timerInterval_running by exact Hr.
      destruct (Num.strict_eq _ _); [|exact H].
      destruct p as [[s i t st fi bi] d dm].
      destruct s as [r pa b tr fd bd sc ts t0 pt].
      destruct b; exact H.
    + rewrite page_timerInterval_stopped by exact Hr. exact H.
  - destruct (Nat.eqb (timeouts (model p)) 0); [exact H|].
    unfold Page.autoStart, Page.startTimer. cbn [model upd_model timer timeout_fired].
    destruct (isRunning (timer (model p))); [exact H|].
    intros _. split; reflexivity.
  - exact H.
Qed.

Lemma onLoad_idle (prefersDark : bool) (store : gmap string string) (d : dom) :
  isRunning (timer (model (Page.onLoad prefersDark (Page.fresh store d))))
  = false
  /\ isPaused (timer (model (Page.onLoad prefersDark (Page.fresh store d))))
     = false.
Proof.
  unfold Page.onLoad, Page.setupTheme, Page.applyTheme.
  cbn [isDarkMode set_isDarkMode].
  match goal with |- context [if ?c then _ else _] => destruct c end;
    split; reflexivity.
Qed.

(** X15. From the loaded page on, whatever the document's flags were, both
    duration inputs are disabled whenever the timer runs or is paused; so a
    change of the settings then does nothing, and the durations, the store
    and timeRemaining can be changed through the inputs only while the timer
    is idle. *)
Theorem settings_locked_while_active
    (es : list Page.event) (prefersDark : bool)
    (store : gmap string string) (d : dom) (v : string) :
  let p := Page.run es (Page.onLoad prefersDark (Page.fresh store d)) in
  inputs_locked p
  /\ (isRunning (timer (model p)) = true \/ isPaused (timer (model p)) = true ->
      Page.step (Page.ChangeFocus v) p = p
      /\ Page.step (Page.ChangeBreak v) p = p).
Proof.
  intros p.
  assert (H : inputs_locked p).
  { apply (page_run_invariant inputs_locked step_inputs_locked).
    destruct (onLoad_idle prefersDark store d) as [Hr Hp].
    intros [Hc|Hc]; congruence. }
  split; [exact H|].
  intros Hact. destruct (H Hact) as [Hf Hb].
  unfold Page.step. rewrite Hf, Hb. split; reflexivity.
Qed.

Lemma settings_locked_while_active_witness :
  Page.step (Page.ChangeFocus "50")
    (Page.run [Page.ClickStart 0; Page.ClickPause 5000]
       (Page.onLoad false (Page.fresh ∅ (Dom "" "" "" "" false "" false false false false ""))))
  = Page.run [Page.ClickStart 0; Page.ClickPause 5000]
      (Page.onLoad false (Page.fresh ∅ (Dom "" "" "" "" false "" false false false false ""))).
Proof.
  destruct (settings_locked_while_active
              [Page.ClickStart 0; Page.ClickPause 5000] false ∅
              (Dom "" "" "" "" false "" false false false false "") "50")
    as [_ H].
  destruct H as [Hf _]; [right; reflexivity | exact Hf].
Defined.

(** ** The theme *)

Ltac page_cases :=
  repeat match goal with
         | |- context [if ?c then _ else _] => destruct c
         end.

Lemma page_completeTimer_theme (p : screen) :
  theme_of (Page.completeTimer p) = theme_of p.
Proof.
  destruct p as [[s i t st fi bi] d dm].
  destruct s as [r pa b tr fd bd sc ts t0 pt].
  destruct b; reflexivity.
Qed.

(** No event but a click on the theme button touches the theme. *)
Lemma step_theme_frame (e : Page.event) (p : screen) :
  e <> Page.ClickTheme -> theme_of (Page.step e p) = theme_of p.
Proof.
  intros He. destruct e as [now|now| | |v|v|now|now| ]; unfold Page.step.
  - unfold Page.startTimer. page_cases; reflexivity.
  - unfold Page.togglePause. page_cases; reflexivity.
  - reflexivity.
  - contradiction.
  - destruct (focusInput_disabled (view p)); [reflexivity|].
    unfold theme_of, Page.saveSettings. cbn -[parseInt Num.to_string].
    rewrite !lookup_insert_ne by discriminate. reflexivity.
  - destruct (breakInput_disabled (view p)); [reflexivity|].
    unfold theme_of, Page.saveSettings. cbn -[parseInt Num.to_string].
    rewrite !lookup_insert_ne by discriminate. reflexivity.
  - destruct (Nat.eqb (intervals (model p)) 0); [reflexivity|].
    destruct (page_running_cases p) as [Hr|Hr].
    + rewrite page_timerInterval_running by exact Hr.
      destruct (Num.strict_eq _ _); [|reflexivity].
      rewrite page_completeTimer_theme. reflexivity.
    + rewrite page_timerInterval_stopped by exact Hr. reflexivity.
  - destruct (Nat.eqb (timeouts (model p)) 0); [reflexivity|].
    unfold Page.autoStart, Page.startTimer.
    cbn [model upd_model timer timeout_fired].
    page_cases; reflexivity.
  - unfold theme_of, Page.saveStats. cbn -[Num.to_string].
    rewrite !lookup_insert_ne by discriminate. reflexivity.
Qed.

Lemma themeClick_spec (p : screen) :
  isDarkMode (Page.themeClick p) = negb (isDarkMode p)
  /\ theme_applied (Page.themeClick p)
  /\ localStorage (model (Page.themeClick p)) !! "pomodoroTheme"
     = Some (if negb (isDarkMode p) then "dark" else "light")%string.
Proof.
  unfold Page.themeClick, Page.applyTheme, theme_applied.
  cbn [isDarkMode set_isDarkMode].
  destruct (isDarkMode p); cbn; repeat split; apply lookup_insert_eq.
Qed.

Lemma step_theme_ok (e : Page.event) (p : screen) :
  theme_applied p /\ theme_remembered p ->
  theme_applied (Page.step e p) /\ theme_remembered (Page.step e p).
Proof.
  intros [Ha Hm].
  assert (Hcase : e = Page.ClickTheme \/ e <> Page.ClickTheme)
    by (destruct e; (left; reflexivity) || (right; discriminate)).
  destruct Hcase as [->|Hne].
  - cbn [Page.step]. destruct (themeClick_spec p) as (Hd & Happ & Hst).
    split; [exact Happ|].
    intros v Hv _. rewrite Hst in Hv. injection Hv as <-.
    rewrite Hd. destruct (isDarkMode p); reflexivity.
  - pose proof (step_theme_frame e p Hne) as Hf.
    unfold theme_of in Hf. injection Hf as H1 H2 H3 H4.
    split.
    + unfold theme_applied. rewrite H1, H2, H3. exact Ha.
    + intros v Hv Hnv. rewrite H1. apply Hm; [|exact Hnv].
      rewrite <- H4. exact Hv.
Qed.

Lemma setupTheme_ok (prefersDark : bool) (p : screen) :
  theme_applied (Page.setupTheme prefersDark p)
  /\ theme_remembered (Page.setupTheme prefersDark p)
  /\ isDarkMode (Page.setupTheme prefersDark p)
     = match localStorage (model p) !! "pomodoroTheme" with
       | Some v =>
           if decide (v = ""%string) then prefersDark
           else bool_decide (v = "dark"%string)
       | None => prefersDark
       end
  /\ model (Page.setupTheme prefersDark p) = model p.
Proof.
  unfold Page.setupTheme, Page.applyTheme, theme_applied, theme_remembered.
  cbn [isDarkMode set_isDarkMode].
  destruct (localStorage (model p) !! "pomodoroTheme") as [v|] eqn:Hv.
  - destruct (decide (v = ""%string)) as [He|He].
    + destruct prefersDark; cbn; repeat split;
        intros v' Hv' Hne; rewrite Hv in Hv'; congruence.
    + destruct (bool_decide (v = "dark"%string)) eqn:Hd; cbn; repeat split;
        intros v' Hv' Hne; rewrite Hv in Hv'; injection Hv' as <-;
        symmetry; exact Hd.
  - destruct prefersDark; cbn; repeat split;
      intros v' Hv' Hne; rewrite Hv in Hv'; discriminate.
Qed.

Lemma onLoad_theme_ok (prefersDark : bool) (store : gmap string string) (d : dom) :
  theme_applied (Page.onLoad prefersDark (Page.fresh store d))
  /\ theme_remembered (Page.onLoad prefersDark (Page.fresh store d)).
Proof.
  destruct (setupTheme_ok prefersDark (Page.loadSettings (Page.fresh store d)))
    as (Ha & Hm & _ & _).
  split; [exact Ha | exact Hm].
Qed.

(** X16. After the page has loaded, and after every sequence of events,
    the class of the root element and the icon of the button show the
    current mode, and a theme in the store is the current one.  So on the
    next page load setupTheme restores the mode the page was left in,
    whatever the system prefers, as soon as a theme was ever stored; with
    none stored (or an empty one) it takes the system's preference. *)
Theorem theme_survives_reload
    (es : list Page.event) (prefersDark : bool)
    (store : gmap string string) (d : dom) :
  let p := Page.run es (Page.onLoad prefersDark (Page.fresh store d)) in
  theme_applied p
  /\ theme_remembered p
  /\ (forall (prefersDark' : bool) (d' : dom),
      isDarkMode
        (Page.setupTheme prefersDark' (Page.fresh (localStorage (model p)) d'))
      = match localStorage (model p) !! "pomodoroTheme" with
        | Some v => if decide (v = ""%string) then prefersDark' else isDarkMode p
        | None => prefersDark'
        end).
Proof.
  intros p.
  assert (H : theme_applied p /\ theme_remembered p).
  { apply (page_run_invariant
             (fun q => theme_applied q /\ theme_remembered q) step_theme_ok).
    apply onLoad_theme_ok. }
  destruct H as [Ha Hm]. split; [exact Ha|]. split; [exact Hm|].
  intros prefersDark' d'.
  destruct (setupTheme_ok prefersDark' (Page.fresh (localStorage (model p)) d'))
    as (_ & _ & Hd & _).
  rewrite Hd. cbn [Page.fresh model localStorage page].
  destruct (localStorage (model p) !! "pomodoroTheme") as [v|] eqn:Hv;
    [|reflexivity].
  destruct (decide (v = ""%string)) as [He|He]; [reflexivity|].
  symmetry. apply Hm; assumption.
Qed.

(** X17. A click on the theme button switches the mode, shows it and
    stores it as "dark" or "light"; it leaves the timer, what is scheduled
    and every other key of the store alone.  A second click gives back the
    mode, and with it the class and the icon the first click replaced. *)
Theorem themeClick_toggles (p : screen) :
  let p1 := Page.themeClick p in
  let p2 := Page.themeClick p1 in
  isDarkMode p1 = negb (isDarkMode p)
  /\ theme_applied p1
  /\ localStorage (model p1) !! "pomodoroTheme"
     = Some (if isDarkMode p1 then "dark" else "light")%string
  /\ (forall k : string, k <> "pomodoroTheme"%string ->
      localStorage (model p1) !! k = localStorage (model p) !! k)
  /\ (timer (model p1), intervals (model p1), timeouts (model p1))
     = (timer (model p), intervals (model p), timeouts (model p))
  /\ isDarkMode p2 = isDarkMode p
  /\ (theme_applied p ->
      dark_mode_class (view p2) = dark_mode_class (view p)
      /\ themeToggle_text (view p2) = themeToggle_text (view p)).
Proof.
  intros p1 p2.
  destruct (themeClick_spec p) as (Hd & Ha & Hs).
  destruct (themeClick_spec p1) as (Hd2 & Ha2 & _). fold p1 in Hd, Ha, Hs.
  fold p2 in Hd2, Ha2.
  assert (Hback : isDarkMode p2 = isDarkMode p).
  { rewrite Hd2, Hd. apply negb_involutive. }
  split; [exact Hd|]. split; [exact Ha|]. split.
  { rewrite Hs, Hd. reflexivity. }
  split.
  { intros k Hk. unfold p1, Page.themeClick, Page.applyTheme.
    cbn [isDarkMode set_isDarkMode].
    destruct (negb (isDarkMode p)); cbn; apply lookup_insert_ne; congruence. }
  split.
  { unfold p1, Page.themeClick, Page.applyTheme.
    cbn [isDarkMode set_isDarkMode].
    destruct (negb (isDarkMode p)); reflexivity. }
  split; [exact Hback|].
  intros [Hc Ht]. destruct Ha2 as [Hc2 Ht2].
  rewrite Hc2, Ht2, Hc, Ht, Hback. split; reflexivity.
Qed.

Lemma themeClick_toggles_witness :
  dark_mode_class
    (view (Page.themeClick
             (Page.themeClick
                (Page.onLoad true (Page.fresh ∅ (Dom "" "" "" "" false "" false false false false ""))))))
  = true.
Proof.
  destruct (themeClick_toggles
              (Page.onLoad true (Page.fresh ∅ (Dom "" "" "" "" false "" false false false false ""))))
    as (_ & _ & _ & _ & _ & _ & H).
  destruct H as [Hc _]; [split; reflexivity | exact Hc].
Defined.

(** ** A run from idle, and the edge durations *)

Lemma recompute_value (now : Z) (s : timerState) :
  timeRemaining (recompute now s)
  = Num.max (Int 0)
      (Num.sub (phaseDuration s)
         (Int ((now - to_number (startTime s)) / 1000))).
Proof. reflexivity. Qed.

Lemma startTimer_fresh (t : Z) (w : world) :
  isRunning (timer w) = false -> pausedTime (timer w) = None ->
  isRunning (timer (startTimer t w)) = true
  /\ startTime (timer (startTimer t w)) = Some t
  /\ phaseDuration (timer (startTimer t w)) = phaseDuration (timer w)
  /\ stats (timer (startTimer t w)) = stats (timer w)
  /\ isBreak (timer (startTimer t w)) = isBreak (timer w)
  /\ timeouts (startTimer t w) = timeouts w.
Proof.
  intros Hr Hp. rewrite startTimer_stopped by exact Hr.
  cbn -[Z.sub]. rewrite Hp. cbn -[Z.sub].
  repeat split. f_equal. lia.
Qed.

(** X18. A start from idle with no paused time (a first start, or one
    after a reset) counts the current phase's whole duration d > 0 from the
    moment of the start: a tick less than 1000 d milliseconds later leaves
    max(0, d - floor(elapsed / 1000)) > 0 seconds, the phase and the
    statistics as they were; a tick 1000 d milliseconds later or more
    completes the phase.  After a reset this is the duration of the phase
    the timer is in, also when reset itself put the focus duration into
    timeRemaining during a break. *)
Theorem fresh_start_counts_full_phase (t now d : Z) (w : world) :
  isRunning (timer w) = false ->
  pausedTime (timer w) = None ->
  phaseDuration (timer w) = Int d ->
  0 < d ->
  let w1 := timerInterval now (startTimer t w) in
  (now - t < 1000 * d ->
     timeRemaining (timer w1) = Int (Z.max 0 (d - (now - t) / 1000))
     /\ 0 < Z.max 0 (d - (now - t) / 1000)
     /\ isBreak (timer w1) = isBreak (timer w)
     /\ stats (timer w1) = stats (timer w)
     /\ timeouts w1 = timeouts w)
  /\ (1000 * d <= now - t ->
      isBreak (timer w1) = negb (isBreak (timer w))
      /\ totalSeconds (timer w1) = Num.add (totalSeconds (timer w)) (Int d)
      /\ timeouts w1 = S (timeouts w))
  /\ (forall w0 : world,
      isRunning (timer (resetTimer w0)) = false
      /\ pausedTime (timer (resetTimer w0)) = None
      /\ phaseDuration (timer (resetTimer w0)) = phaseDuration (timer w0)).
Proof.
  intros Hr Hp Hd Hpos w1.
  destruct (startTimer_fresh t w Hr Hp) as (R & St & Ph & Sta & Br & To).
  assert (Hrec : timeRemaining (recompute now (timer (startTimer t w)))
                 = Int (Z.max 0 (d - (now - t) / 1000))).
  { rewrite recompute_value, Ph, Hd, St. reflexivity. }
  assert (Hw1 : w1 = timerInterval now (startTimer t w)) by reflexivity.
  rewrite timerInterval_running in Hw1 by exact R.
  rewrite Hrec in Hw1.
  split; [|split; [|intros w0; repeat split]].
  - intros Hlt.
    assert (Hq : (now - t) / 1000 < d) by (apply Z.div_lt_upper_bound; lia).
    assert (Hne : Num.strict_eq (Int (Z.max 0 (d - (now - t) / 1000))) (Int 0)
                  = false).
    { cbn [Num.strict_eq]. apply Z.eqb_neq. lia. }
    rewrite Hne in Hw1. rewrite Hw1.
    split; [exact Hrec|]. split; [lia|].
    split; [exact Br|]. split; [exact Sta | exact To].
  - intros Hge.
    assert (Hq : d <= (now - t) / 1000) by (apply Z.div_le_lower_bound; lia).
    assert (He : Num.strict_eq (Int (Z.max 0 (d - (now - t) / 1000))) (Int 0)
                 = true).
    { cbn [Num.strict_eq]. apply Z.eqb_eq. lia. }
    rewrite He in Hw1. rewrite Hw1.
    set (wc := clearInterval (with_timer (recompute now) (startTimer t w))).
    destruct (completeTimer_keeps_run wc)
      as (_ & _ & _ & K4 & _ & _ & _ & _ & _ & K10).
    destruct (completeTimer_stats wc) as [_ T1].
    change (isBreak (timer wc)) with (isBreak (timer (startTimer t w))) in K4.
    change (timeouts wc) with (timeouts (startTimer t w)) in K10.
    change (totalSeconds (timer wc))
      with (totalSeconds (timer (startTimer t w))) in T1.
    change (phaseDuration (timer wc))
      with (phaseDuration (timer (startTimer t w))) in T1.
    rewrite Br in K4. rewrite To in K10. rewrite Ph, Hd in T1.
    unfold stats in Sta. injection Sta as _ Tot. rewrite Tot in T1.
    split; [exact K4|]. split; [exact T1 | exact K10].
Qed.

Lemma fresh_start_counts_full_phase_witness :
  timeRemaining (timer (timerInterval 61000
                          (startTimer 1000 (resetTimer in_break))))
  = Int (Z.max 0 (300 - (61000 - 1000) / 1000)).
Proof.
  destruct (fresh_start_counts_full_phase 1000 61000 300 (resetTimer in_break)
              eq_refl eq_refl eq_refl ltac:(lia)) as (H & _).
  destruct H as (H & _); [lia | exact H].
Defined.

(** X19. When the duration of the current phase is NaN (the settings input
    did not start with a number), every tick of a running timer sets
    timeRemaining to NaN and changes nothing else: the phase never
    completes, and the time shown is "NaN:NaN". *)
Theorem nan_duration_never_completes (now : Z) (w : world) :
  isRunning (timer w) = true ->
  phaseDuration (timer w) = NaN ->
  timerInterval now w = with_timer (set_timeRemaining NaN) w
  /\ formatTime (timeRemaining (timer (timerInterval now w)))
     = "NaN:NaN"%string
  /\ (forall ts : list Z,
      (0 < intervals w)%nat ->
      ts <> [] ->
      run (map EvTick ts) w = with_timer (set_timeRemaining NaN) w).
Proof.
  intros Hr Hd.
  assert (Hrec : forall n, recompute n (timer w) = set_timeRemaining NaN (timer w)).
  { intros n. unfold recompute. fold (phaseDuration (timer w)).
    rewrite Hd. reflexivity. }
  assert (Hone : forall n, timerInterval n w = with_timer (set_timeRemaining NaN) w).
  { intros n. rewrite timerInterval_running by exact Hr.
    rewrite Hrec. cbn [timeRemaining set_timeRemaining Num.strict_eq].
    unfold with_timer. rewrite Hrec. reflexivity. }
  split; [apply Hone|]. split; [rewrite Hone; reflexivity|].
  intros ts Hi Hne.
  set (w' := with_timer (set_timeRemaining NaN) w).
  assert (Hfix : forall n, step (EvTick n) w' = w').
  { intros n. unfold step.
    destruct (Nat.eqb_spec (intervals w') 0) as [He|He]; [reflexivity|].
    rewrite timerInterval_running by exact Hr.
    assert (Hr' : recompute n (timer w') = timer w').
    { unfold recompute.
      change (isBreak (timer w')) with (isBreak (timer w)).
      change (breakDuration (timer w')) with (breakDuration (timer w)).
      change (focusDuration (timer w')) with (focusDuration (timer w)).
      fold (phaseDuration (timer w)). rewrite Hd. reflexivity. }
    rewrite Hr'. cbn [timer w' with_timer timeRemaining set_timeRemaining
                      Num.strict_eq].
    unfold with_timer at 1. rewrite Hr'.
    destruct w as [s i u st fi bi]. reflexivity. }
  assert (Hall : forall l, run (map EvTick l) w' = w').
  { induction l as [|n l IH]; [reflexivity|].
    cbn [map]. rewrite run_cons, Hfix. exact IH. }
  destruct ts as [|n ts]; [contradiction|].
  cbn [map]. rewrite run_cons.
  assert (Hs : step (EvTick n) w = w').
  { unfold step. destruct (Nat.eqb_spec (intervals w) 0) as [He|He]; [lia|].
    apply Hone. }
  rewrite Hs. apply Hall.
Qed.

Lemma nan_duration_never_completes_witness :
  timerInterval 9999999 (startTimer 0 (saveSettings word_focus))
  = with_timer (set_timeRemaining NaN) (startTimer 0 (saveSettings word_focus)).
Proof.
  destruct (nan_duration_never_completes 9999999
              (startTimer 0 (saveSettings word_focus)) eq_refl eq_refl)
    as (H & _).
  exact H.
Defined.

(** X20. A duration d <= 0 (a settings input of 0 or below) makes every
    tick of a running timer whose start time is not in the future complete
    the phase at once, and adds d to totalSeconds: with a negative d the
    total decreases. *)
Theorem nonpositive_duration_completes_at_once (now d tot : Z) (w : world) :
  isRunning (timer w) = true ->
  phaseDuration (timer w) = Int d ->
  d <= 0 ->
  to_number (startTime (timer w)) <= now ->
  totalSeconds (timer w) = Int tot ->
  let w1 := timerInterval now w in
  isBreak (timer w1) = negb (isBreak (timer w))
  /\ totalSeconds (timer w1) = Int (tot + d)
  /\ tot + d <= tot
  /\ timeouts w1 = S (timeouts w).
Proof.
  intros Hr Hd Hle Hst Ht w1.
  assert (Hz : timeRemaining (recompute now (timer w)) = Int 0).
  { apply (recompute_zero_iff now d (timer w) Hd).
    assert (0 <= (now - to_number (startTime (timer w))) / 1000)
      by (apply Z.div_pos; lia).
    lia. }
  assert (Hw1 : w1 = completeTimer
                       (clearInterval (with_timer (recompute now) w))).
  { unfold w1. rewrite timerInterval_running by exact Hr.
    rewrite Hz. reflexivity. }
  set (wc := clearInterval (with_timer (recompute now) w)) in Hw1.
  destruct (completeTimer_keeps_run wc)
    as (_ & _ & _ & K4 & _ & _ & _ & _ & _ & K10).
  destruct (completeTimer_stats wc) as [_ T1].
  rewrite <- Hw1 in K4, K10, T1.
  change (isBreak (timer wc)) with (isBreak (timer w)) in K4.
  change (timeouts wc) with (timeouts w) in K10.
  change (totalSeconds (timer wc)) with (totalSeconds (timer w)) in T1.
  change (phaseDuration (timer wc)) with (phaseDuration (timer w)) in T1.
  rewrite Ht, Hd in T1.
  split; [exact K4|]. split; [exact T1|]. split; [lia | exact K10].
Qed.

Lemma nonpositive_duration_completes_at_once_witness :
  totalSeconds (timer (timerInterval 100 (startTimer 0 (saveSettings zero_focus))))
  = Int (0 + 0).
Proof.
  destruct (nonpositive_duration_completes_at_once 100 0 0
              (startTimer 0 (saveSettings zero_focus))
              eq_refl eq_refl ltac:(lia) ltac:(simpl; lia) eq_refl)
    as (_ & H & _).
  exact H.
Defined.
